(** * deadoralive: a link checker for client sites

    A shallow embedding of [deadoralive.py] and the properties of its
    natural-language specification.

    The program is glue around the [requests] HTTP library: it asks a client
    site for resource IDs, asks for the URL of each, probes the URL and posts
    the outcome back.  The embedding keeps the shape of the Python code:

    - Python values are a small dynamically typed universe ([value]);
    - dicts live in a heap and are passed by reference ([loc]), because
      [check_url] builds its result by mutation and [upsert_result] copies
      the result it is given before extending it;
    - exceptions have a class and [try ... except C] selects by class;
    - the network and the guard socket are oracles over an abstract world;
    - every function is written in a state-and-exception monad.  *)

From Stdlib Require Import ZArith Ascii String List.
From stdpp Require Import base gmap strings list pretty.

Local Open Scope Z_scope.
Local Open Scope string_scope.
Local Open Scope list_scope.

(** ** Python values *)

(** The values that flow through the program: [None], booleans, integers and
    strings.  Resource IDs and URLs come out of JSON documents; the fields of
    a link check result are of these four kinds. *)
Inductive value : Type :=
  | VNone
  | VBool (b : bool)
  | VInt (n : Z)
  | VStr (s : string).

#[global] Instance value_eq_dec : EqDecision value.
Proof. solve_decision. Defined.

(** [str(v)], as used by [str.format]. *)
Definition py_str (v : value) : string :=
  match v with
  | VNone => "None"
  | VBool true => "True"
  | VBool false => "False"
  | VInt n => pretty n
  | VStr s => s
  end.

(** Truth value of [v] in an [if]. *)
Definition py_truthy (v : value) : bool :=
  match v with
  | VNone => false
  | VBool b => b
  | VInt n => negb (n =? 0)%Z
  | VStr s => negb (String.eqb s "")
  end.

(** [v in (True, False)]: membership compares with [==], under which the
    integers 1 and 0 equal [True] and [False]. *)
Definition in_true_false (v : value) : bool :=
  match v with
  | VBool _ => true
  | VInt n => (n =? 1)%Z || (n =? 0)%Z
  | _ => false
  end.

(** [s.endswith(suffix)]: some tail of [s] is [suffix]. *)
Fixpoint endswith (s suffix : string) : bool :=
  String.eqb s suffix ||
  match s with
  | EmptyString => false
  | String _ s' => endswith s' suffix
  end.

(** A dict with string keys, and a reference to one in the heap. *)
Abbreviation dict := (gmap string value).
Abbreviation loc := nat (only parsing).

(** ** Exceptions *)

Inductive exn_class : Type :=
  | RequestException          (* requests.exceptions.RequestException *)
  | HTTPError                 (* requests.exceptions.HTTPError *)
  | ConnectionError           (* requests.exceptions.ConnectionError *)
  | Timeout                   (* requests.exceptions.Timeout *)
  | CouldNotGetResourceIDsError
  | CouldNotGetURLError
  | KeyError
  | AssertionError
  | ValueError
  | SocketError               (* socket.error *)
  | OverflowError
  | SystemExit.

#[global] Instance exn_class_eq_dec : EqDecision exn_class.
Proof. solve_decision. Defined.

(** [issubclass c handler]: does [except handler] catch an exception of
    class [c]?  The three transport and status errors of [requests] derive
    from [RequestException]; every class is a subclass of itself. *)
Definition issubclass (c handler : exn_class) : bool :=
  bool_decide (c = handler) ||
  match handler, c with
  | RequestException, (HTTPError | ConnectionError | Timeout) => true
  | _, _ => false
  end.

(** An exception object: its class, [str(err)] and, for [socket.error],
    the [errno] attribute. *)
Record exn : Type := Exn {
  exn_cls : exn_class;
  exn_str : string;
  exn_errno : option Z;
}.

Definition isinstance (e : exn) (handler : exn_class) : bool :=
  issubclass (exn_cls e) handler.

(** What a call does: it returns a value or raises. *)
Inductive outcome (A : Type) : Type :=
  | Returned (a : A)
  | Raised (e : exn).
Arguments Returned {A} a.
Arguments Raised {A} e.

(** ** The state-and-exception monad *)

Definition M (S A : Type) : Type := S -> outcome A * S.

Definition ret {S A} (a : A) : M S A := fun s => (Returned a, s).

Definition raise {S A} (e : exn) : M S A := fun s => (Raised e, s).

Definition bind {S A B} (m : M S A) (k : A -> M S B) : M S B :=
  fun s =>
    match m s with
    | (Returned a, s') => k a s'
    | (Raised e, s') => (Raised e, s')
    end.

(** [try: body except handler as err: on_error(err)].  What the body did to
    the state before it raised stays done. *)
Definition try_except {S A} (body : M S A) (handler : exn_class)
    (on_error : exn -> M S A) : M S A :=
  fun s =>
    match body s with
    | (Returned a, s') => (Returned a, s')
    | (Raised e, s') =>
        if isinstance e handler then on_error e s' else (Raised e, s')
    end.

(** [if not cond: body] *)
Definition unless {S} (cond : bool) (body : M S unit) : M S unit :=
  if cond then ret tt else body.

(** [assert cond] *)
Definition py_assert {S} (cond : bool) : M S unit :=
  if cond then ret tt else raise (Exn AssertionError "" None).

Declare Scope py_scope.
Delimit Scope py_scope with py.
Notation "x <- c1 ;; c2" := (bind c1 (fun x => c2))
  (at level 100, c1 at next level, right associativity) : py_scope.
Notation "c1 ;; c2" := (bind c1 (fun _ => c2))
  (at level 100, right associativity) : py_scope.
Local Open Scope py_scope.

(** [for x in xs: body(x)] *)
Fixpoint for_each {S A} (xs : list A) (body : A -> M S unit) : M S unit :=
  match xs with
  | [] => ret tt
  | x :: xs' => body x ;; for_each xs' body
  end.

(** ** The [requests] library *)

Inductive http_method : Type := GET | POST.

(** A request as the program asks [requests] for it, the [requests.Request]
    of a call of [requests.get] or [requests.post]: the method and the URL
    of the call, and the [headers] and [params] of the call as [requests]
    keeps them.  This is not what goes over the network: what [requests]
    does with the request below the call (refusing a URL that it cannot
    prepare, following redirects with further requests, adding headers of
    its own, among them an [Authorization] header for credentials in the
    URL or in [.netrc]) is part of what the call comes to, and is not
    modelled. *)
Record request : Type := Request {
  req_method : http_method;
  req_url : value;
  req_headers : dict;
  req_params : dict;
}.

(** A response: status line and decoded JSON body.  [response.json()] is
    read at the type the endpoint's contract gives the document: a list of
    resource IDs or a single value (the URL).  It raises when the body is
    not such a document. *)
Record response : Type := Response {
  status_code : Z;
  reason : string;
  json_list : outcome (list value);
  json_value : outcome value;
}.

(** Of the [headers] and [params] of a call, [requests] keeps every item
    but those whose value is [None]. *)
Definition merge_setting (setting : dict) : dict :=
  filter (fun kv => kv.2 <> VNone) setting.

(** [response.raise_for_status()] raises [HTTPError] for the client and
    server error statuses, 400 to 599, and for no other status. *)
Definition is_error_status (code : Z) : bool :=
  (400 <=? code)%Z && (code <? 600)%Z.

Definition http_error_msg (r : response) : string :=
  pretty (status_code r) +:+
  (if (status_code r <? 500)%Z then " Client Error: " else " Server Error: ") +:+
  reason r.

Definition raise_for_status {S} (r : response) : M S unit :=
  if is_error_status (status_code r)
  then raise (Exn HTTPError (http_error_msg r) None)
  else ret tt.

(** [response.ok]: [raise_for_status()] would not raise. *)
Definition ok (r : response) : bool := negb (is_error_status (status_code r)).

(** ** The store *)

(** What the functions of the program act on: the heap of dicts, the world
    outside the process (the network, the ports of the host) and the
    requests that the program has asked [requests] for so far, one for each
    call of [requests.get] and [requests.post]. *)
Record store (W : Type) : Type := Store {
  heap : list dict;
  world : W;
  requested : list request;
}.
Arguments Store {W} heap world requested.
Arguments heap {W} s.
Arguments world {W} s.
Arguments requested {W} s.

(** The dict a reference points to.  Python has no dangling references; a
    location that was never allocated reads as an empty dict. *)
Definition deref (h : list dict) (l : loc) : dict := default ∅ (h !! l).

(** [KeyError(k)], which [d[k]] raises for a missing key.  Its [str] is the
    [repr] of the key: for a key of plain characters, as the keys of this
    program are, the key between single quotes. *)
Definition key_error (k : string) : exn :=
  Exn KeyError ("'" +:+ k +:+ "'") None.

Section Dicts.
Context {W : Type}.

(** A dict display [{...}]: a new object. *)
Definition dict_new (d : dict) : M (store W) loc :=
  fun s => (Returned (length (heap s)),
            Store (heap s ++ [d]) (world s) (requested s)).

(** [d[k] = v] *)
Definition dict_setitem (l : loc) (k : string) (v : value)
    : M (store W) unit :=
  fun s => (Returned tt,
            Store (alter (insert k v) l (heap s)) (world s) (requested s)).

(** [k in d] *)
Definition dict_contains (l : loc) (k : string) : M (store W) bool :=
  fun s => (Returned (bool_decide (is_Some (deref (heap s) l !! k))), s).

(** [d.get(k)] *)
Definition dict_get (l : loc) (k : string) : M (store W) value :=
  fun s => (Returned (default VNone (deref (heap s) l !! k)), s).

(** [d[k]] *)
Definition dict_getitem (l : loc) (k : string) : M (store W) value :=
  fun s =>
    match deref (heap s) l !! k with
    | Some v => (Returned v, s)
    | None => (Raised (key_error k), s)
    end.

(** [d.copy()]: a new object with the same items. *)
Definition dict_copy (l : loc) : M (store W) loc :=
  fun s => dict_new (deref (heap s) l) s.

(** The items of [d], as a callee that only reads the dict sees them. *)
Definition dict_items (l : loc) : M (store W) dict :=
  fun s => (Returned (deref (heap s) l), s).
End Dicts.

(** ** The functions of [deadoralive.py] that talk to the network *)

Section Collaborators.
Context {W : Type}.

(** What a call of [requests] comes to in the current world: the response
    that the call returns in the end, or the exception that it raises. *)
Variable send : request -> W -> outcome response * W.

(** [requests.request(method, url, headers=headers, params=params)]: the
    call is recorded, one request for each call, and the world decides
    what comes of it. *)

Definition requests_request (method : http_method) (url : value)
    (headers params : dict) : M (store W) response :=
  fun s =>
    let req := Request method url (merge_setting headers)
                       (merge_setting params) in
    (fst (send req (world s)),
     Store (heap s) (snd (send req (world s))) (requested s ++ [req])).

Definition requests_get := requests_request GET.
Definition requests_post := requests_request POST.

(** [response.json()] *)
Definition from_outcome {A} (o : outcome A) : M (store W) A :=
  fun s => (o, s).

Definition get_resources_to_check (client_site_url : string)
    (apikey : value) : M (store W) (list value) :=
  let url := client_site_url +:+ "deadoralive/get_resources_to_check" in
  response <- requests_get (VStr url) {[ "Authorization" := apikey ]} ∅ ;;
  if negb (ok response) then
    raise (Exn CouldNotGetResourceIDsError
             ("Couldn't get resource IDs to check: " +:+
              py_str (VInt (status_code response)) +:+ " " +:+
              py_str (VStr (reason response)))
             None)
  else from_outcome (json_list response).

Definition get_url_for_id (client_site_url : string) (apikey : value)
    (resource_id : value) : M (store W) value :=
  let url := client_site_url +:+ "deadoralive/get_url_for_resource_id" in
  let params : dict := {[ "resource_id" := resource_id ]} in
  response <- requests_get (VStr url) {[ "Authorization" := apikey ]}
                           params ;;
  if negb (ok response) then
    raise (Exn CouldNotGetURLError
             ("Couldn't get URL for resource " +:+ py_str resource_id +:+
              ": " +:+ py_str (VInt (status_code response)) +:+ " " +:+
              py_str (VStr (reason response)))
             None)
  else from_outcome (json_value response).

Definition check_url (url : value) : M (store W) loc :=
  result <- dict_new {[ "url" := url ]} ;;
  try_except
    (response <- requests_get url ∅ ∅ ;;
     dict_setitem result "status" (VInt (status_code response)) ;;
     dict_setitem result "reason" (VStr (reason response)) ;;
     raise_for_status response ;;
     dict_setitem result "alive" (VBool true))
    RequestException
    (fun err =>
       dict_setitem result "alive" (VBool false) ;;
       has_reason <- dict_contains result "reason" ;;
       unless has_reason
         (dict_setitem result "reason" (VStr (exn_str err))) ;;
       has_status <- dict_contains result "status" ;;
       unless has_status
         (dict_setitem result "status" VNone)) ;;
  has_url <- dict_contains result "url" ;;
  py_assert has_url ;;
  alive <- dict_get result "alive" ;;
  py_assert (in_true_false alive) ;;
  has_status <- dict_contains result "status" ;;
  py_assert has_status ;;
  has_reason <- dict_contains result "reason" ;;
  py_assert has_reason ;;
  ret result.

Definition upsert_result (client_site_url : string) (apikey : value)
    (resource_id : value) (result : loc) : M (store W) unit :=
  let url := client_site_url +:+ "deadoralive/upsert" in
  params <- dict_copy result ;;
  dict_setitem params "resource_id" resource_id ;;
  sent <- dict_items params ;;
  requests_post (VStr url) {[ "Authorization" := apikey ]} sent ;;
  ret tt.
End Collaborators.

(** ** The orchestrator *)

(** What an observer of a run sees, in order: the records the logger emits,
    and the calls recorded by collaborators that are mocks.  A call of the
    prober is recorded with the dict it returned as it was on return, a call
    of the reporter with the dict it was given as it was on entry. *)
Inductive event : Type :=
  | LogInfo (msg : string)
  | CalledLister (client_site_url : string) (apikey : value)
      (ret : outcome (list value))
  | CalledResolver (client_site_url : string) (apikey resource_id : value)
      (ret : outcome value)
  | CalledProber (url : value) (ret : outcome (loc * dict))
  | CalledReporter (client_site_url : string) (apikey resource_id : value)
      (result : loc) (items : dict) (ret : outcome unit).

(** The state of the process: the store, the number of handlers attached to
    the logger named "deadoralive", and the journal of events. *)
Record state (W : Type) : Type := State {
  st : store W;
  handlers : nat;
  journal : list event;
}.
Arguments State {W} st handlers journal.
Arguments st {W} s.
Arguments handlers {W} s.
Arguments journal {W} s.

Section Orchestrator.
Context {W : Type}.

(** Run a function of the store in the process. *)
Definition lift {A} (m : M (store W) A) : M (state W) A :=
  fun s => (fst (m (st s)),
            State (snd (m (st s))) (handlers s) (journal s)).

(** [_get_logger()]: each call attaches one more stream handler to the
    logger. *)
Definition _get_logger : M (state W) unit :=
  fun s => (Returned tt, State (st s) (S (handlers s)) (journal s)).

(** [logger.info(msg)]: every attached handler emits the record. *)
Definition logger_info (msg : string) : M (state W) unit :=
  fun s => (Returned tt,
            State (st s) (handlers s)
                  (journal s ++ repeat (LogInfo msg) (handlers s))).

Variable get_resource_ids_to_check :
  string -> value -> M (state W) (list value).
Variable get_url_for_id : string -> value -> value -> M (state W) value.
Variable check_url : value -> M (state W) loc.
Variable upsert_result : string -> value -> value -> loc -> M (state W) unit.

(** The body of the [for] loop.  The [try] yields the URL, or nothing when
    the handler ends in [continue]. *)
Definition check_and_report_one (client_site_url : string)
    (apikey resource_id : value) : M (state W) unit :=
  resolved <-
    try_except
      (url <- get_url_for_id client_site_url apikey resource_id ;;
       ret (Some url))
      CouldNotGetURLError
      (fun _ =>
         logger_info ("This link checker was not authorized to access " +:+
                      "resource " +:+ py_str resource_id +:+ ", skipping.") ;;
         ret None) ;;
  match resolved with
  | None => ret tt
  | Some url =>
      result <- check_url url ;;
      status <- lift (dict_getitem result "status") ;;
      reason <- lift (dict_getitem result "reason") ;;
      alive <- lift (dict_getitem result "alive") ;;
      (if py_truthy alive then
         logger_info ("Checking URL " +:+ py_str url +:+ " of resource " +:+
                      py_str resource_id +:+ " succeeded with " +:+
                      "status " +:+ py_str status +:+ ":")
       else
         logger_info ("Checking URL " +:+ py_str url +:+ " of resource " +:+
                      py_str resource_id +:+ " " +:+
                      "failed with error " +:+ py_str reason +:+ ":")) ;;
      upsert_result client_site_url apikey resource_id result
  end.

Definition get_check_and_report (client_site_url : string)
    (apikey : value) : M (state W) unit :=
  _get_logger ;;
  resource_ids <- get_resource_ids_to_check client_site_url apikey ;;
  for_each resource_ids (check_and_report_one client_site_url apikey).
End Orchestrator.

(** ** Mocks *)

(** A mock wraps a function of the store and records each call, with what it
    returned or raised, in the journal. *)
Section Mocks.
Context {W : Type}.

Definition record {A} (m : M (store W) A) (ev : outcome A -> store W -> event)
    : M (state W) A :=
  fun s =>
    (fst (m (st s)),
     State (snd (m (st s))) (handlers s)
           (journal s ++ [ev (fst (m (st s))) (snd (m (st s)))])).

Definition mock_lister (f : string -> value -> M (store W) (list value))
    : string -> value -> M (state W) (list value) :=
  fun url key => record (f url key) (fun o _ => CalledLister url key o).

Definition mock_resolver (f : string -> value -> value -> M (store W) value)
    : string -> value -> value -> M (state W) value :=
  fun url key id => record (f url key id)
                           (fun o _ => CalledResolver url key id o).

Definition snapshot (o : outcome loc) (s : store W) : outcome (loc * dict) :=
  match o with
  | Returned l => Returned (l, deref (heap s) l)
  | Raised e => Raised e
  end.

Definition mock_prober (f : value -> M (store W) loc)
    : value -> M (state W) loc :=
  fun url => record (f url) (fun o s => CalledProber url (snapshot o s)).

Definition mock_reporter
    (f : string -> value -> value -> loc -> M (store W) unit)
    : string -> value -> value -> loc -> M (state W) unit :=
  fun url key id result s =>
    record (f url key id result)
           (fun o _ => CalledReporter url key id result
                                      (deref (heap (st s)) result) o) s.
End Mocks.

(** ** The command line *)

(** The arguments as [argparse] hands them over: [--url] (required),
    [--apikey] (a string, or [None] when absent) and [--port] (an [int],
    4723 when absent). *)
Record parsed_args : Type := ParsedArgs {
  args_url : string;
  args_apikey : value;
  args_port : Z;
}.

Definition newline : string := String "010"%char "".

Section Main.
Context {W : Type}.
Variable send : request -> W -> outcome response * W.

(** [s.bind(('localhost', port))] on a fresh socket. *)
Variable bind_port : Z -> W -> outcome unit * W.

Definition socket_bind (port : Z) : M (store W) unit :=
  fun s => (fst (bind_port port (world s)),
            Store (heap s) (snd (bind_port port (world s))) (requested s)).

(** [sys.exit(msg)] *)
Definition sys_exit {A} (msg : string) : M (state W) A :=
  raise (Exn SystemExit msg None).

(** The base URL that [main] works with. *)
Definition client_site_url (url : string) : string :=
  if negb (endswith url "/") then url +:+ "/" else url.

Definition main (parsed : parsed_args) (argv0 : string) : M (state W) unit :=
  let client_site_url := client_site_url (args_url parsed) in
  let apikey := args_apikey parsed in
  let port := args_port parsed in
  try_except
    (lift (socket_bind port))
    SocketError
    (fun err =>
       if bool_decide (exn_errno err = Some 98%Z) then
         sys_exit
           ("Port " +:+ py_str (VInt port) +:+ " is already in use." +:+
            newline +:+
            "Is there another instance of " +:+ py_str (VStr argv0) +:+
            " already running?" +:+ newline +:+
            "To run multiple instances of " +:+ py_str (VStr argv0) +:+
            " at once use the " +:+
            "--port <num> option.")
       else raise err) ;;
  get_check_and_report
    (fun url key => lift (get_resources_to_check send url key))
    (fun url key id => lift (get_url_for_id send url key id))
    (fun url => lift (check_url send url))
    (fun url key id result => lift (upsert_result send url key id result))
    client_site_url apikey.

(** The cycle that [main] runs: the orchestrator with the four functions
    of this module as its collaborators. *)
Definition checking_cycle (client_site_url : string) (apikey : value)
    : M (state W) unit :=
  get_check_and_report
    (fun url key => lift (get_resources_to_check send url key))
    (fun url key id => lift (get_url_for_id send url key id))
    (fun url => lift (check_url send url))
    (fun url key id result => lift (upsert_result send url key id result))
    client_site_url apikey.

(** The message that [main] exits with when the port is taken. *)
Definition port_in_use_msg (port : Z) (argv0 : string) : string :=
  "Port " +:+ pretty port +:+ " is already in use." +:+ newline +:+
  "Is there another instance of " +:+ argv0 +:+ " already running?" +:+
  newline +:+
  "To run multiple instances of " +:+ argv0 +:+ " at once use the " +:+
  "--port <num> option.".
End Main.

(** * The vocabulary of the properties *)

(** ** Link check results and requests *)

(** The four fields of a link check result. *)
Definition probe_result (url alive status reason : value) : dict :=
  <["alive" := alive]> (<["reason" := reason]> (<["status" := status]>
    {[ "url" := url ]})).

(** The request of [requests.get(url)], with which [check_url] probes
    [url]: no headers and no parameters are passed. *)
Definition probe_request (url : value) : request := Request GET url ∅ ∅.



(** The requests that the lister, the resolver and the reporter issue. *)
Definition lister_request (client_site_url : string) (apikey : value)
    : request :=
  Request GET (VStr (client_site_url +:+ "deadoralive/get_resources_to_check"))
          (merge_setting {[ "Authorization" := apikey ]}) (merge_setting ∅).

Definition resolver_request (client_site_url : string)
    (apikey resource_id : value) : request :=
  Request GET (VStr (client_site_url +:+ "deadoralive/get_url_for_resource_id"))
          (merge_setting {[ "Authorization" := apikey ]})
          (merge_setting {[ "resource_id" := resource_id ]}).

Definition reporter_request (client_site_url : string)
    (apikey resource_id : value) (result : dict) : request :=
  Request POST (VStr (client_site_url +:+ "deadoralive/upsert"))
          (merge_setting {[ "Authorization" := apikey ]})
          (merge_setting (<["resource_id" := resource_id]> result)).

Section Stores.
Context {W : Type}.
Variable send : request -> W -> outcome response * W.
Variable bind_port : Z -> W -> outcome unit * W.

(** The store after a probe: one more dict and one more call of [requests]. *)
Definition probed (s : store W) (url : value) (d : dict) : store W :=
  Store (heap s ++ [d]) (snd (send (probe_request url) (world s)))
        (requested s ++ [probe_request url]).

(** The store after the call of [requests] for [req]. *)
Definition sent (s : store W) (req : request) (h : list dict) : store W :=
  Store h (snd (send req (world s))) (requested s ++ [req]).

(** The state once the guard socket has been tried. *)
Definition guarded (s : state W) (port : Z) : state W :=
  State (Store (heap (st s)) (snd (bind_port port (world (st s))))
               (requested (st s)))
        (handlers s) (journal s).
End Stores.

(** The rule of the specification: a response is alive exactly when its
    status is a success status, 200 to 299. *)
Definition is_success_status (code : Z) : bool :=
  (200 <=? code)%Z && (code <? 300)%Z.

Definition classifies_by_success {W}
    (send : request -> W -> outcome response * W) (s : store W) (url : value)
    : Prop :=
  forall r, fst (send (probe_request url) (world s)) = Returned r ->
    exists l s',
      check_url send url s = (Returned l, s') /\
      deref (heap s') l
      = probe_result url (VBool (is_success_status (status_code r)))
                     (VInt (status_code r)) (VStr (reason r)).

(** The rule of the specification: the reason of a result is a non-empty
    string. *)
Definition has_nonempty_reason (d : dict) : Prop :=
  exists reason : string, d !! "reason" = Some (VStr reason) /\ reason <> "".

(** ** Runs of the orchestrator among mocks *)

(** The lines that the orchestrator logs. *)
Definition skip_msg (resource_id : value) : string :=
  "This link checker was not authorized to access " +:+
  "resource " +:+ py_str resource_id +:+ ", skipping.".

Definition checked_msg (url resource_id status reason alive : value) : string :=
  if py_truthy alive then
    "Checking URL " +:+ py_str url +:+ " of resource " +:+
    py_str resource_id +:+ " succeeded with " +:+
    "status " +:+ py_str status +:+ ":"
  else
    "Checking URL " +:+ py_str url +:+ " of resource " +:+
    py_str resource_id +:+ " " +:+
    "failed with error " +:+ py_str reason +:+ ":".

(** The calls among the events of a journal. *)
Definition is_call (ev : event) : bool :=
  match ev with
  | LogInfo _ => false
  | _ => true
  end.

Definition calls (j : list event) : list event := List.filter is_call j.

(** One resource, checked and reported: its ID, the URL it resolved to, the
    result that the prober returned and the items of that result. *)
Record round : Type := Round {
  round_id : value;
  round_url : value;
  round_result : loc;
  round_items : dict;
}.

Definition round_calls (client_site_url : string) (apikey : value) (r : round)
    : list event :=
  [ CalledResolver client_site_url apikey (round_id r) (Returned (round_url r));
    CalledProber (round_url r) (Returned (round_result r, round_items r));
    CalledReporter client_site_url apikey (round_id r) (round_result r)
                   (round_items r) (Returned tt) ].

(** The first of the items that the orchestrator reads, in the order in
    which it reads them, that a dict lacks. *)
Definition first_missing (d : dict) : option string :=
  match d !! "status", d !! "reason", d !! "alive" with
  | None, _, _ => Some "status"
  | Some _, None, _ => Some "reason"
  | Some _, Some _, None => Some "alive"
  | Some _, Some _, Some _ => None
  end.

(** A dict that the orchestrator can read as a link check result. *)
Definition readable (d : dict) : Prop :=
  is_Some (d !! "status") /\ is_Some (d !! "reason") /\ is_Some (d !! "alive").

Section MockedRuns.
Context {W : Type}.
Variable f_list : string -> value -> M (store W) (list value).
Variable f_resolve : string -> value -> value -> M (store W) value.
Variable f_probe : value -> M (store W) loc.
Variable f_report : string -> value -> value -> loc -> M (store W) unit.
Variable client_site_url : string.
Variable apikey : value.

(** The loop body and the cycle, with mocks around four functions of the
    store as collaborators. *)
Definition one : value -> M (state W) unit :=
  check_and_report_one (mock_resolver f_resolve) (mock_prober f_probe)
                       (mock_reporter f_report) client_site_url apikey.

Definition cycle : M (state W) unit :=
  get_check_and_report (mock_lister f_list) (mock_resolver f_resolve)
                       (mock_prober f_probe) (mock_reporter f_report)
                       client_site_url apikey.
End MockedRuns.

(** ** Runs of the cycle of [main], and what they send *)

Section RealRuns.
Context {W : Type}.
Variable send : request -> W -> outcome response * W.

(** The loop body of the cycle that [main] runs. *)
Definition check_one (client_site_url : string) (apikey : value)
    : value -> M (state W) unit :=
  check_and_report_one
    (fun url key id => lift (get_url_for_id send url key id))
    (fun url => lift (check_url send url))
    (fun url key id result => lift (upsert_result send url key id result))
    client_site_url apikey.
End RealRuns.

(** What [requests] keeps of an item of a setting. *)
Definition kept (item : option value) : option value :=
  match item with
  | Some VNone => None
  | other => other
  end.

(** The requests of a cycle after the listing: those of the resolver and of
    the reporter, for the client site and with the API key, and those of
    the prober. *)
Definition cycle_request (client_site_url : string) (apikey : value)
    (req : request) : Prop :=
  (exists resource_id,
     req = resolver_request client_site_url apikey resource_id) \/
  (exists url, req = probe_request url) \/
  (exists resource_id result,
     req = reporter_request client_site_url apikey resource_id result).

(** [m] forgets no call of [requests] that was made, and every request that
    it asks [requests] for satisfies [P]. *)
Definition sends_only {W A} (P : request -> Prop) (m : M (state W) A) : Prop :=
  forall s, exists new,
    requested (st (snd (m s))) = requested (st s) ++ new /\ Forall P new.

(** The number of records that the logger emitted. *)
Definition log_records (j : list event) : nat :=
  length (List.filter (fun ev => negb (is_call ev)) j).

(** * Worlds and collaborators for examples *)

(** A network for examples: a script of what each successive request meets.
    Once the script is used up the host is unreachable. *)
Definition scripted : request -> list (outcome response) ->
    outcome response * list (outcome response) :=
  fun _ script =>
    match script with
    | o :: rest => (o, rest)
    | [] => (Raised (Exn ConnectionError "Connection refused" None), [])
    end.

(** A response whose body is not JSON. *)
Definition plain (code : Z) (phrase : string) : response :=
  Response code phrase
           (Raised (Exn ValueError "No JSON object could be decoded" None))
           (Raised (Exn ValueError "No JSON object could be decoded" None)).

(** A store and a process that have done nothing yet. *)
Definition empty_store {W} (w : W) : store W := Store [] w [].

Definition fresh_process {W} (w : W) : state W := State (empty_store w) 0 [].

(** The checks of [test_deadoralive.py] on the prober. *)
Definition probe (replies : list (outcome response)) : list (option value) :=
  match check_url scripted (VStr "http://just.testing.com/this/is/just/a/test/")
                  (empty_store replies) with
  | (Returned l, s) =>
      map (fun k => deref (heap s) l !! k) ["alive"; "status"; "reason"]
  | (Raised _, _) => []
  end.

(** The ports of a host for examples: binding fails with [err] when there
    is one. *)
Definition port_fails (err : option exn) : Z -> list (outcome response) ->
    outcome unit * list (outcome response) :=
  fun _ w =>
    match err with
    | Some e => (Raised e, w)
    | None => (Returned tt, w)
    end.

Definition address_in_use : exn :=
  Exn SocketError "[Errno 98] Address already in use" (Some 98%Z).

(** A client site that lists two resources. *)
Definition two_ids : response :=
  Response 200 "OK" (Returned [VStr "a"; VStr "b"])
           (Raised (Exn ValueError "not a URL" None)).

(** Its answer to the question for the URL of the resource a. *)
Definition url_of_a : response :=
  Response 200 "OK" (Raised (Exn ValueError "not a list" None))
           (Returned (VStr "http://example.org/a")).

Definition connection_refused : exn :=
  Exn ConnectionError "Connection refused" None.

(** The URLs of the requests that went out, in order. *)
Definition urls_requested {W} (run : outcome unit * state W) : list value :=
  map req_url (requested (st (snd run))).

(** ** The scenario of [test_get_check_and_report] *)

Definition test_ids : list value :=
  [VStr "resource_id_1"; VStr "resource_id_2"; VStr "resource_id_3"].

Definition test_lister : string -> value -> M (store unit) (list value) :=
  fun _ _ => ret test_ids.

(** [get_url_for_id_]: a lookup in a dict of three items. *)
Definition test_resolver : string -> value -> value -> M (store unit) value :=
  fun _ _ resource_id =>
    if bool_decide (resource_id = VStr "resource_id_1") then ret (VStr "url_1")
    else if bool_decide (resource_id = VStr "resource_id_2") then
      ret (VStr "url_2")
    else if bool_decide (resource_id = VStr "resource_id_3") then
      ret (VStr "url_3")
    else raise (key_error (py_str resource_id)).

(** [check_url_]: the first and the third URL are alive. *)
Definition test_prober : value -> M (store unit) loc :=
  fun url =>
    if bool_decide (url = VStr "url_1") || bool_decide (url = VStr "url_3")
    then dict_new (probe_result url (VBool true) (VInt 200) (VStr "OK"))
    else dict_new (probe_result url (VBool false) (VInt 500)
                                (VStr "Internal Server Error")).

Definition test_reporter
    : string -> value -> value -> loc -> M (store unit) unit :=
  fun _ _ _ _ => ret tt.

(** A resolver that the client site does not authorize for the second
    resource. *)
Definition refusing_resolver
    : string -> value -> value -> M (store unit) value :=
  fun url key resource_id =>
    if bool_decide (resource_id = VStr "resource_id_2") then
      raise (Exn CouldNotGetURLError
               "Couldn't get URL for resource resource_id_2: 403 Forbidden"
               None)
    else test_resolver url key resource_id.

Definition test_round (n url : string) (alive : bool) (l : loc) : round :=
  Round (VStr n) (VStr url) l
        (if alive
         then probe_result (VStr url) (VBool true) (VInt 200) (VStr "OK")
         else probe_result (VStr url) (VBool false) (VInt 500)
                           (VStr "Internal Server Error")).

(** A prober that returns a dict with the URL and nothing else. *)
Definition careless_prober : value -> M (store unit) loc :=
  fun url => dict_new {[ "url" := url ]}.

(** A resolver that cannot reach the client site for the second resource. *)
Definition unreachable_resolver
    : string -> value -> value -> M (store unit) value :=
  fun url key resource_id =>
    if bool_decide (resource_id = VStr "resource_id_2") then
      raise connection_refused
    else test_resolver url key resource_id.

(** A prober that raises for the second URL. *)
Definition raising_prober : value -> M (store unit) loc :=
  fun url =>
    if bool_decide (url = VStr "url_2") then
      raise (Exn ValueError "Invalid IPv6 URL" None)
    else test_prober url.

(** A reporter that cannot reach the client site for the second resource. *)
Definition unreachable_reporter
    : string -> value -> value -> loc -> M (store unit) unit :=
  fun _ _ resource_id _ =>
    if bool_decide (resource_id = VStr "resource_id_2") then
      raise connection_refused
    else ret tt.

(** * Properties *)

(** ** Dicts at the newest location *)

Lemma deref_newest (h : list dict) (d : dict) :
  deref (h ++ [d]) (length h) = d.
Proof. unfold deref. by rewrite list_lookup_middle. Qed.

Lemma deref_older (h : list dict) (d x : dict) (l : loc) :
  h !! l = Some x -> deref (h ++ [d]) l = x.
Proof.
  intros Hl. unfold deref. rewrite lookup_app_l; [by rewrite Hl|].
  by eapply lookup_lt_Some.
Qed.

Lemma alter_newest (f : dict -> dict) (h : list dict) (d : dict) :
  alter f (length h) (h ++ [d]) = h ++ [f d].
Proof.
  replace (length h) with (length h + 0)%nat at 1 by lia.
  by rewrite alter_app_r.
Qed.

(** Evaluate reads and writes of the dict allocated last. *)
Ltac newest :=
  repeat first
    [ rewrite alter_newest
    | rewrite deref_newest
    | rewrite lookup_insert_eq
    | rewrite lookup_insert_ne by done
    | rewrite lookup_singleton_eq
    | rewrite lookup_singleton_ne by done ];
  cbn.

(** ** The prober *)

Lemma merge_setting_empty : merge_setting ∅ = ∅.
Proof. apply map_filter_empty. Qed.

Section Prober.
Context {W : Type}.
Variable send : request -> W -> outcome response * W.
Implicit Types (s : store W) (url : value).

Ltac run_check_url url :=
  unfold check_url, bind, try_except, dict_new, requests_get,
    requests_request, raise_for_status, unless, py_assert, ret, raise,
    dict_setitem, dict_contains, dict_get;
  cbn; rewrite merge_setting_empty; fold (probe_request url).

(** A response came back: liveness is decided by [raise_for_status]. *)
Lemma check_url_responded s url r :
  fst (send (probe_request url) (world s)) = Returned r ->
  check_url send url s
  = (Returned (length (heap s)),
     probed send s url
       (probe_result url (VBool (negb (is_error_status (status_code r))))
                     (VInt (status_code r)) (VStr (reason r)))).
Proof.
  intros Hsend. run_check_url url. rewrite Hsend. newest.
  destruct (is_error_status (status_code r)); newest.
  - change (isinstance _ RequestException) with true. by repeat newest.
  - by repeat newest.
Qed.

(** [requests.get] raised an exception of the [requests] family. *)
Lemma check_url_failed s url e :
  fst (send (probe_request url) (world s)) = Raised e ->
  isinstance e RequestException = true ->
  check_url send url s
  = (Returned (length (heap s)),
     probed send s url (probe_result url (VBool false) VNone (VStr (exn_str e)))).
Proof.
  intros Hsend Hcls. run_check_url url. rewrite Hsend, Hcls. repeat newest.
  reflexivity.
Qed.

(** [requests.get] raised anything else: the handler does not apply. *)
Lemma check_url_escaped s url e :
  fst (send (probe_request url) (world s)) = Raised e ->
  isinstance e RequestException = false ->
  check_url send url s = (Raised e, probed send s url {[ "url" := url ]}).
Proof.
  intros Hsend Hcls. run_check_url url. by rewrite Hsend, Hcls.
Qed.
(** C2 (as amended).  For every URL the prober classifies the outcome of
    its GET request as follows.  If a response is received, the result
    holds the status code and the reason phrase of the response, and
    [alive] is true exactly when the status is not an error status (400 to
    599), the statuses for which [raise_for_status] raises; a response
    with a 1xx or 3xx status therefore counts as alive.  If [requests.get]
    raises an exception of the [requests] family, the result has [alive]
    false, status [None] and [str(err)] as its reason.  Any other exception
    leaves [check_url]. *)
Theorem check_url_classifies s url :
  check_url send url s =
  match fst (send (probe_request url) (world s)) with
  | Returned r =>
      (Returned (length (heap s)),
       probed send s url
         (probe_result url
            (VBool (negb (is_error_status (status_code r))))
            (VInt (status_code r)) (VStr (reason r))))
  | Raised e =>
      if isinstance e RequestException then
        (Returned (length (heap s)),
         probed send s url
           (probe_result url (VBool false) VNone (VStr (exn_str e))))
      else (Raised e, probed send s url {[ "url" := url ]})
  end.
Proof.
  destruct (fst (send (probe_request url) (world s))) as [r|e] eqn:Hsend.
  - by apply check_url_responded.
  - destruct (isinstance e RequestException) eqn:Hcls.
    + by apply check_url_failed.
    + by apply check_url_escaped.
Qed.

(** C3 (as amended).  Every result that [check_url] returns holds exactly
    the four fields url, alive, status and reason; alive is a boolean;
    reason is a string, which may be empty; and status is [None] exactly
    when [requests.get] raised instead of returning a response. *)
Theorem check_url_result_shape s url l s' :
  check_url send url s = (Returned l, s') ->
  exists (alive : bool) (status : value) (reason : string),
    deref (heap s') l
    = probe_result url (VBool alive) status (VStr reason) /\
    (status = VNone <->
     exists e, fst (send (probe_request url) (world s)) = Raised e).
Proof.
  intros Hrun.
  destruct (fst (send (probe_request url) (world s))) as [r|e] eqn:Hsend.
  - rewrite (check_url_responded _ _ _ Hsend) in Hrun.
    injection Hrun as <- <-.
    exists (negb (is_error_status (status_code r))),
      (VInt (status_code r)), (reason r).
    split; [apply deref_newest|].
    split; [discriminate | intros [e He]; discriminate].
  - destruct (isinstance e RequestException) eqn:Hcls.
    + rewrite (check_url_failed _ _ _ Hsend Hcls) in Hrun.
      injection Hrun as <- <-.
      exists false, VNone, (exn_str e).
      split; [apply deref_newest|]. split; eauto.
    + rewrite (check_url_escaped _ _ _ Hsend Hcls) in Hrun. discriminate.
Qed.

(** As long as the failures of the HTTP request are exceptions of the
    [requests] family, and whatever the status of a response, [check_url]
    returns a new dict that is a complete result. *)
Lemma check_url_captures s url :
  (forall e, fst (send (probe_request url) (world s)) = Raised e ->
             isinstance e RequestException = true) ->
  exists (alive : bool) (status : value) (reason : string),
    check_url send url s
    = (Returned (length (heap s)),
       probed send s url
         (probe_result url (VBool alive) status (VStr reason))).
Proof.
  intros Hfamily.
  destruct (fst (send (probe_request url) (world s))) as [r|e] eqn:Hsend.
  - rewrite (check_url_responded _ _ _ Hsend). by eexists _, _, _.
  - rewrite (check_url_failed _ _ _ Hsend (Hfamily e eq_refl)).
    by eexists _, _, _.
Qed.
End Prober.

(** C4, the failing input.  [requests.get] raises an exception that is not
    of the [requests] family, here a [ValueError] put in its place the way
    the test of invalid HTTP puts a [RequestException]: the [except] clause
    of [check_url] does not apply, the exception reaches the caller and no
    result is returned. *)
Theorem check_url_lets_other_exceptions_through :
  let e := Exn ValueError "Oh no invalid HTTP!" None in
  let run :=
    check_url scripted (VStr "http://just.testing.com/this/is/just/a/test/")
              (empty_store [Raised e]) in
  isinstance e RequestException = false /\ fst run = Raised e.
Proof. vm_compute. by split. Qed.

Example test_check_url_with_200_OK :
  probe [Returned (plain 200 "OK")]
  = [Some (VBool true); Some (VInt 200); Some (VStr "OK")].
Proof. reflexivity. Qed.

Example test_check_url_with_401 :
  probe [Returned (plain 401 "Unauthorized")]
  = [Some (VBool false); Some (VInt 401); Some (VStr "Unauthorized")].
Proof. reflexivity. Qed.

Example test_check_url_with_500 :
  probe [Returned (plain 500 "Internal Server Error")]
  = [Some (VBool false); Some (VInt 500);
     Some (VStr "Internal Server Error")].
Proof. reflexivity. Qed.

Example test_check_url_with_invalid_http :
  probe [Raised (Exn RequestException "Oh no invalid HTTP!" None)]
  = [Some (VBool false); Some VNone; Some (VStr "Oh no invalid HTTP!")].
Proof. reflexivity. Qed.

(** C2, counterexample.  A URL that answers 304 Not Modified has a
    non-success status, yet the prober reports it alive. *)
Lemma check_url_304_is_alive :
  ~ classifies_by_success scripted
      (empty_store [Returned (plain 304 "Not Modified")])
      (VStr "http://example.org/").
Proof.
  intros Hclaim.
  destruct (Hclaim (plain 304 "Not Modified") eq_refl) as (l & s' & Hrun & Hd).
  vm_compute in Hrun. injection Hrun as <- <-.
  apply (f_equal (fun d : dict => d !! "alive")) in Hd.
  vm_compute in Hd. discriminate.
Qed.

(** C3, counterexample.  A status line may carry an empty reason phrase; the
    prober passes it on as it is. *)
Lemma check_url_empty_reason :
  exists l s',
    check_url scripted (VStr "http://example.org/")
              (empty_store [Returned (plain 200 "")]) = (Returned l, s') /\
    ~ has_nonempty_reason (deref (heap s') l).
Proof.
  eexists _, _. split; [reflexivity|].
  intros (reason & Hr & Hne). vm_compute in Hr. congruence.
Qed.

(** C3, instance: a host that cannot be reached. *)
Lemma check_url_result_shape_witness :
  exists (alive : bool) (status : value) (reason : string),
    deref [probe_result (VStr "http://example.org/") (VBool false) VNone
             (VStr "Connection refused")] 0
    = probe_result (VStr "http://example.org/") (VBool alive) status
                   (VStr reason) /\
    (status = VNone <->
     exists e, fst (scripted (probe_request (VStr "http://example.org/")) [])
               = Raised e).
Proof.
  exact (check_url_result_shape scripted (empty_store [])
           (VStr "http://example.org/") 0 _ eq_refl).
Defined.

(** A host that cannot be reached gives a result, not an exception. *)
Example check_url_captures_unreachable :
  exists (alive : bool) (status : value) (reason : string),
    check_url scripted (VStr "http://example.org/") (empty_store [])
    = (Returned 0%nat,
       probed scripted (empty_store []) (VStr "http://example.org/")
         (probe_result (VStr "http://example.org/") (VBool alive) status
                       (VStr reason))).
Proof.
  apply (check_url_captures scripted (empty_store [])
           (VStr "http://example.org/")).
  intros e He. injection He as <-. reflexivity.
Qed.

(** ** The requests to the client site *)


Section ClientSite.
Context {W : Type}.
Variable send : request -> W -> outcome response * W.
Implicit Types (s : store W) (apikey resource_id : value).

Lemma get_resources_to_check_run s url apikey :
  get_resources_to_check send url apikey s
  = (match fst (send (lister_request url apikey) (world s)) with
     | Returned r =>
         if ok r then json_list r
         else Raised (Exn CouldNotGetResourceIDsError
                        ("Couldn't get resource IDs to check: " +:+
                         pretty (status_code r) +:+ " " +:+ reason r) None)
     | Raised e => Raised e
     end,
     sent send s (lister_request url apikey) (heap s)).
Proof.
  unfold get_resources_to_check, bind, requests_get, requests_request,
    raise, from_outcome; cbn.
  fold (lister_request url apikey).
  destruct (fst (send _ _)) as [r|e]; [|done].
  by destruct (ok r).
Qed.

Lemma get_url_for_id_run s url apikey resource_id :
  get_url_for_id send url apikey resource_id s
  = (match fst (send (resolver_request url apikey resource_id) (world s)) with
     | Returned r =>
         if ok r then json_value r
         else Raised (Exn CouldNotGetURLError
                        ("Couldn't get URL for resource " +:+
                         py_str resource_id +:+ ": " +:+
                         pretty (status_code r) +:+ " " +:+ reason r) None)
     | Raised e => Raised e
     end,
     sent send s (resolver_request url apikey resource_id) (heap s)).
Proof.
  unfold get_url_for_id, bind, requests_get, requests_request,
    raise, from_outcome; cbn.
  fold (resolver_request url apikey resource_id).
  destruct (fst (send _ _)) as [r|e]; [|done].
  by destruct (ok r).
Qed.

Lemma upsert_result_run s url apikey resource_id result :
  let copy := <["resource_id" := resource_id]> (deref (heap s) result) in
  let req := reporter_request url apikey resource_id
                              (deref (heap s) result) in
  upsert_result send url apikey resource_id result s
  = (match fst (send req (world s)) with
     | Returned _ => Returned tt
     | Raised e => Raised e
     end,
     sent send s req (heap s ++ [copy])).
Proof.
  unfold upsert_result, bind, dict_copy, dict_new, dict_setitem,
    dict_items, requests_post, requests_request, ret; cbn.
  rewrite alter_newest, deref_newest.
  fold (reporter_request url apikey resource_id (deref (heap s) result)).
  by destruct (fst (send _ _)).
Qed.


(** C10.  The reporter leaves the result it is given as it found it: it
    extends a copy.  Every dict of the heap, the result among them, holds
    after the call what it held before, and the request sent carries the
    items of the result together with the resource ID. *)
Theorem upsert_result_preserves s url apikey resource_id result l d :
  heap s !! l = Some d ->
  heap (snd (upsert_result send url apikey resource_id result s)) !! l
  = Some d /\
  exists req,
    requested (snd (upsert_result send url apikey resource_id result s))
    = requested s ++ [req] /\
    req_params req
    = merge_setting (<["resource_id" := resource_id]>
                       (deref (heap s) result)).
Proof.
  intros Hl. rewrite upsert_result_run; cbn. split.
  - rewrite lookup_app_l; [done | by eapply lookup_lt_Some].
  - by eexists.
Qed.
End ClientSite.

(** C10, instance: a result that already has a [resource_id] item keeps it,
    although the request is sent with the ID of the call. *)
Lemma upsert_result_preserves_witness :
  let result : dict :=
    <["resource_id" := VStr "stale"]>
      (probe_result (VStr "http://example.org/") (VBool true) (VInt 200)
                    (VStr "OK")) in
  let s := Store [result] [Returned (plain 200 "OK")] [] in
  heap (snd (upsert_result scripted "http://demo.ckan.org/" (VStr "foo")
                           (VStr "resource_id_1") 0%nat s)) !! 0%nat
  = Some result /\
  exists req,
    requested (snd (upsert_result scripted "http://demo.ckan.org/" (VStr "foo")
                             (VStr "resource_id_1") 0%nat s))
    = requested s ++ [req] /\
    req_params req
    = merge_setting (<["resource_id" := VStr "resource_id_1"]>
                       (deref (heap s) 0%nat)).
Proof.
  intros result s.
  exact (upsert_result_preserves scripted s "http://demo.ckan.org/"
           (VStr "foo") (VStr "resource_id_1") 0%nat 0%nat result eq_refl).
Defined.

(** ** The orchestrator among mocks *)

Lemma calls_app (j1 j2 : list event) : calls (j1 ++ j2) = calls j1 ++ calls j2.
Proof. apply List.filter_app. Qed.

Lemma calls_repeat_log (msg : string) (n : nat) :
  calls (repeat (LogInfo msg) n) = [].
Proof. induction n; [done | by simpl]. Qed.

Lemma log_records_app (j1 j2 : list event) :
  log_records (j1 ++ j2) = (log_records j1 + log_records j2)%nat.
Proof. unfold log_records. by rewrite List.filter_app, length_app. Qed.

Lemma log_records_repeat (msg : string) (n : nat) :
  log_records (repeat (LogInfo msg) n) = n.
Proof. induction n; [done|]. unfold log_records in *; simpl. by rewrite IHn. Qed.

(** A dict is readable, or lacks a first item. *)
Lemma readable_or_missing (d : dict) :
  readable d \/ exists k, first_missing d = Some k.
Proof.
  unfold readable, first_missing.
  destruct (d !! "status"), (d !! "reason"), (d !! "alive"); eauto.
Qed.

(** The first item that a dict lacks is one that it lacks, and the items
    read before it are there. *)
Lemma first_missing_spec (d : dict) (k : string) :
  first_missing d = Some k ->
  d !! k = None /\
  (k = "status" \/
   k = "reason" /\ is_Some (d !! "status") \/
   k = "alive" /\ is_Some (d !! "status") /\ is_Some (d !! "reason")).
Proof.
  unfold first_missing.
  destruct (d !! "status") eqn:Hs, (d !! "reason") eqn:Hr,
    (d !! "alive") eqn:Ha; intros [= <-]; eauto 10.
Qed.

Section AmongMocks.
Context {W : Type}.
Variable f_list : string -> value -> M (store W) (list value).
Variable f_resolve : string -> value -> value -> M (store W) value.
Variable f_probe : value -> M (store W) loc.
Variable f_report : string -> value -> value -> loc -> M (store W) unit.
Variable client_site_url : string.
Variable apikey : value.

Local Abbreviation loop_body :=
  (one f_resolve f_probe f_report client_site_url apikey).
Local Abbreviation the_cycle :=
  (cycle f_list f_resolve f_probe f_report client_site_url apikey).

Lemma for_each_app {A} (xs ys : list A) (body : A -> M (state W) unit) s s1 :
  for_each xs body s = (Returned tt, s1) ->
  for_each (xs ++ ys) body s = for_each ys body s1.
Proof.
  revert s. induction xs as [|x xs IH]; intros s Hxs; simpl in *.
  - unfold ret in Hxs. by injection Hxs as <-.
  - unfold bind in *. destruct (body x s) as [[[]|e] s2]; [auto | done].
Qed.

(** The cycle is the loop, run once the logger is set up and the lister
    has answered. *)
Lemma cycle_listed s ids st0 :
  f_list client_site_url apikey (st s) = (Returned ids, st0) ->
  the_cycle s
  = for_each ids loop_body
      (State st0 (S (handlers s))
             (journal s ++
              [CalledLister client_site_url apikey (Returned ids)])).
Proof.
  intros Hlist.
  unfold cycle, get_check_and_report, bind, _get_logger, mock_lister,
    record; cbn.
  by rewrite Hlist.
Qed.

(** When the lister raises, so does the cycle, at once. *)
Lemma cycle_not_listed s e st0 :
  f_list client_site_url apikey (st s) = (Raised e, st0) ->
  the_cycle s
  = (Raised e,
     State st0 (S (handlers s))
           (journal s ++ [CalledLister client_site_url apikey (Raised e)])).
Proof.
  intros Hlist.
  unfold cycle, get_check_and_report, bind, _get_logger, mock_lister,
    record; cbn.
  by rewrite Hlist.
Qed.

(** A resource whose URL the client site refuses is skipped. *)
Lemma one_skipped s resource_id e st1 :
  f_resolve client_site_url apikey resource_id (st s) = (Raised e, st1) ->
  isinstance e CouldNotGetURLError = true ->
  loop_body resource_id s
  = (Returned tt,
     State st1 (handlers s)
           (journal s ++
            [CalledResolver client_site_url apikey resource_id (Raised e)] ++
            repeat (LogInfo (skip_msg resource_id)) (handlers s))).
Proof.
  intros Hres Hcls.
  unfold one, check_and_report_one, bind, try_except, mock_resolver,
    record, logger_info, ret; cbn.
  rewrite Hres; cbn. rewrite Hcls; cbn.
  by rewrite <- app_assoc.
Qed.

(** Any other exception of the resolver ends the loop body. *)
Lemma one_resolver_raised s resource_id e st1 :
  f_resolve client_site_url apikey resource_id (st s) = (Raised e, st1) ->
  isinstance e CouldNotGetURLError = false ->
  loop_body resource_id s
  = (Raised e,
     State st1 (handlers s)
           (journal s ++
            [CalledResolver client_site_url apikey resource_id (Raised e)])).
Proof.
  intros Hres Hcls.
  unfold one, check_and_report_one, bind, try_except, mock_resolver,
    record, logger_info, ret; cbn.
  rewrite Hres; cbn. by rewrite Hcls.
Qed.

(** A resource whose URL resolves is probed, and the result reported,
    whatever it says. *)
Lemma one_reported s resource_id url st1 l st2 status reason alive o st3 :
  f_resolve client_site_url apikey resource_id (st s) = (Returned url, st1) ->
  f_probe url st1 = (Returned l, st2) ->
  deref (heap st2) l !! "status" = Some status ->
  deref (heap st2) l !! "reason" = Some reason ->
  deref (heap st2) l !! "alive" = Some alive ->
  f_report client_site_url apikey resource_id l st2 = (o, st3) ->
  loop_body resource_id s
  = (o,
     State st3 (handlers s)
           (journal s ++
            [CalledResolver client_site_url apikey resource_id (Returned url);
             CalledProber url (Returned (l, deref (heap st2) l))] ++
            repeat (LogInfo (checked_msg url resource_id status reason alive))
                   (handlers s) ++
            [CalledReporter client_site_url apikey resource_id l
                            (deref (heap st2) l) o])).
Proof.
  intros Hres Hprobe Hstatus Hreason Halive Hreport.
  unfold one, check_and_report_one, bind, try_except, mock_resolver,
    mock_prober, mock_reporter, record, lift, dict_getitem, logger_info,
    ret; cbn.
  rewrite Hres; cbn. rewrite Hprobe; cbn.
  rewrite Hstatus; cbn. rewrite Hreason; cbn. rewrite Halive; cbn.
  unfold checked_msg.
  destruct (py_truthy alive); cbn; rewrite Hreport; cbn;
    by rewrite <- !app_assoc.
Qed.

Lemma one_prober_raised s resource_id url st1 e st2 :
  f_resolve client_site_url apikey resource_id (st s) = (Returned url, st1) ->
  f_probe url st1 = (Raised e, st2) ->
  loop_body resource_id s
  = (Raised e,
     State st2 (handlers s)
           (journal s ++
            [CalledResolver client_site_url apikey resource_id (Returned url);
             CalledProber url (Raised e)])).
Proof.
  intros Hres Hprobe.
  unfold one, check_and_report_one, bind, try_except, mock_resolver,
    mock_prober, record, ret; cbn.
  rewrite Hres; cbn. rewrite Hprobe; cbn. by rewrite <- app_assoc.
Qed.

(** A result that cannot be read ends the loop body with the [KeyError]
    of the first item that is missing. *)
Lemma one_unreadable s resource_id url st1 l st2 k :
  f_resolve client_site_url apikey resource_id (st s) = (Returned url, st1) ->
  f_probe url st1 = (Returned l, st2) ->
  first_missing (deref (heap st2) l) = Some k ->
  loop_body resource_id s
  = (Raised (key_error k),
     State st2 (handlers s)
           (journal s ++
            [CalledResolver client_site_url apikey resource_id
               (Returned url);
             CalledProber url (Returned (l, deref (heap st2) l))])).
Proof.
  intros Hres Hprobe Hmissing.
  unfold one, check_and_report_one, bind, try_except, mock_resolver,
    mock_prober, mock_reporter, record, lift, dict_getitem, logger_info,
    ret; cbn.
  rewrite Hres; cbn. rewrite Hprobe; cbn.
  unfold first_missing in Hmissing.
  destruct (deref (heap st2) l !! "status") as [status|] eqn:Hs; cbn.
  - destruct (deref (heap st2) l !! "reason") as [reason|] eqn:Hr; cbn.
    + destruct (deref (heap st2) l !! "alive") as [alive|] eqn:Ha; cbn.
      * done.
      * injection Hmissing as <-. by rewrite <- app_assoc.
    + injection Hmissing as <-. by rewrite <- app_assoc.
  - injection Hmissing as <-. by rewrite <- app_assoc.
Qed.

(** The loop body, whatever its collaborators do: it keeps the handlers,
    adds events to the journal and, when it returns, has logged once. *)
Lemma one_run s resource_id :
  exists o st1 events,
    loop_body resource_id s
    = (o, State st1 (handlers s) (journal s ++ events)) /\
    (o = Returned tt -> log_records events = handlers s).
Proof.
  destruct (f_resolve client_site_url apikey resource_id (st s))
    as [[url|e] st1] eqn:Hres.
  - destruct (f_probe url st1) as [[l|e] st2] eqn:Hprobe.
    + destruct (readable_or_missing (deref (heap st2) l))
        as [([status Hs] & [reason Hr] & [alive Ha])|[k Hmissing]].
      * destruct (f_report client_site_url apikey resource_id l st2)
          as [o st3] eqn:Hreport.
        eexists _, _, _. split.
        { by apply (one_reported _ _ _ _ _ _ _ _ _ _ _ Hres Hprobe Hs Hr Ha
                      Hreport). }
        intros _. rewrite !log_records_app, log_records_repeat. by cbn.
      * eexists _, _, _.
        split; [by apply (one_unreadable _ _ _ _ _ _ _ Hres Hprobe Hmissing)
               | done].
    + eexists _, _, _.
      split; [by apply (one_prober_raised _ _ _ _ _ _ Hres Hprobe) | done].
  - destruct (isinstance e CouldNotGetURLError) eqn:Hcls.
    + eexists _, _, _. split; [by apply (one_skipped _ _ _ _ Hres Hcls)|].
      intros _. rewrite log_records_app, log_records_repeat. by cbn.
    + eexists _, _, _.
      split; [by apply (one_resolver_raised _ _ _ _ Hres Hcls) | done].
Qed.

(** Neither the mocks nor the loop body attach or detach a handler. *)
Lemma one_handlers s resource_id :
  handlers (snd (loop_body resource_id s)) = handlers s.
Proof.
  destruct (one_run s resource_id) as (o & st1 & events & -> & _). done.
Qed.

Lemma for_each_handlers ids s :
  handlers (snd (for_each ids loop_body s)) = handlers s.
Proof.
  revert s. induction ids as [|resource_id ids IH]; intros s; [done|].
  simpl. unfold bind.
  pose proof (one_handlers s resource_id) as Hone.
  destruct (loop_body resource_id s) as [[[]|e] s1]; simpl in *; [|done].
  by rewrite IH.
Qed.

(** The loop, when every collaborator answers. *)
Lemma for_each_rounds ids :
  (forall resource_id st0, In resource_id ids ->
     exists url st1,
       f_resolve client_site_url apikey resource_id st0 = (Returned url, st1)) ->
  (forall url st1,
     exists l st2,
       f_probe url st1 = (Returned l, st2) /\ readable (deref (heap st2) l)) ->
  (forall resource_id l st2,
     exists st3,
       f_report client_site_url apikey resource_id l st2 = (Returned tt, st3)) ->
  forall s,
  exists rounds,
    map round_id rounds = ids /\
    fst (for_each ids loop_body s) = Returned tt /\
    calls (journal (snd (for_each ids loop_body s)))
    = calls (journal s) ++ flat_map (round_calls client_site_url apikey) rounds.
Proof.
  intros Hresolve Hprobe Hreport.
  induction ids as [|resource_id ids IH]; intros s.
  - exists []. simpl. by rewrite app_nil_r.
  - destruct (Hresolve resource_id (st s)) as (url & st1 & Hres);
      [by left|].
    destruct (Hprobe url st1)
      as (l & st2 & Hpr & [status Hs] & [reason Hr] & [alive Ha]).
    destruct (Hreport resource_id l st2) as (st3 & Hrep).
    destruct IH with
      (s := State st3 (handlers s)
              (journal s ++
               [CalledResolver client_site_url apikey resource_id
                  (Returned url);
                CalledProber url (Returned (l, deref (heap st2) l))] ++
               repeat (LogInfo (checked_msg url resource_id status reason
                                            alive)) (handlers s) ++
               [CalledReporter client_site_url apikey resource_id l
                  (deref (heap st2) l) (Returned tt)]))
      as (rounds & Hids & Hret & Hcalls).
    { intros id st0 Hin. apply Hresolve. by right. }
    exists (Round resource_id url l (deref (heap st2) l) :: rounds).
    simpl. unfold bind.
    rewrite (one_reported _ _ _ _ _ _ _ _ _ _ _ Hres Hpr Hs Hr Ha Hrep).
    split; [by rewrite Hids|]. split; [done|].
    rewrite Hcalls. cbn [journal].
    rewrite !calls_app, calls_repeat_log. cbn.
    by rewrite <- !app_assoc.
Qed.

(** C1.  When the lister returns the IDs [ids] and every collaborator
    answers, the cycle returns and the calls of the run are: the lister
    once; then, for each ID in listing order, the resolver with the base
    URL, the key and the ID, the prober with the URL that the resolver
    returned for the ID, and the reporter with the ID and the very result
    that the prober returned, whatever its [alive] field says. *)
Theorem cycle_calls_each_once s ids st0 :
  f_list client_site_url apikey (st s) = (Returned ids, st0) ->
  (forall resource_id st0, In resource_id ids ->
     exists url st1,
       f_resolve client_site_url apikey resource_id st0 = (Returned url, st1)) ->
  (forall url st1,
     exists l st2,
       f_probe url st1 = (Returned l, st2) /\ readable (deref (heap st2) l)) ->
  (forall resource_id l st2,
     exists st3,
       f_report client_site_url apikey resource_id l st2 = (Returned tt, st3)) ->
  exists rounds,
    map round_id rounds = ids /\
    fst (the_cycle s) = Returned tt /\
    calls (journal (snd (the_cycle s)))
    = calls (journal s) ++
      CalledLister client_site_url apikey (Returned ids) ::
      flat_map (round_calls client_site_url apikey) rounds.
Proof.
  intros Hlist Hresolve Hprobe Hreport.
  rewrite (cycle_listed _ _ _ Hlist).
  destruct (for_each_rounds ids Hresolve Hprobe Hreport
              (State st0 (S (handlers s))
                 (journal s ++
                  [CalledLister client_site_url apikey (Returned ids)])))
    as (rounds & Hids & Hret & Hcalls).
  exists rounds. split; [done|]. split; [done|].
  rewrite Hcalls. cbn [journal]. rewrite calls_app. cbn.
  by rewrite <- app_assoc.
Qed.

(** C5.  When the resolver raises [CouldNotGetURLError] for a resource
    ID, wherever the ID stands in the listing, the orchestrator logs that
    it skips the resource and goes on with the IDs after it: between the
    call of the resolver and the processing of the next ID there is the
    log record and nothing else, so neither the prober nor the reporter is
    called for the ID, and the outcome of the cycle is that of the
    remaining IDs. *)
Theorem cycle_skips_unresolved s before resource_id after st0 s1 e st1 :
  f_list client_site_url apikey (st s)
  = (Returned (before ++ resource_id :: after), st0) ->
  for_each before loop_body
    (State st0 (S (handlers s))
       (journal s ++
        [CalledLister client_site_url apikey
           (Returned (before ++ resource_id :: after))]))
  = (Returned tt, s1) ->
  f_resolve client_site_url apikey resource_id (st s1) = (Raised e, st1) ->
  exn_cls e = CouldNotGetURLError ->
  the_cycle s
  = for_each after loop_body
      (State st1 (S (handlers s))
         (journal s1 ++
          [CalledResolver client_site_url apikey resource_id (Raised e)] ++
          repeat (LogInfo (skip_msg resource_id)) (S (handlers s)))).
Proof.
  intros Hlist Hbefore Hres Hcls.
  rewrite (cycle_listed _ _ _ Hlist).
  rewrite (for_each_app _ _ _ _ _ Hbefore).
  pose proof (for_each_handlers before
                (State st0 (S (handlers s))
                   (journal s ++
                    [CalledLister client_site_url apikey
                       (Returned (before ++ resource_id :: after))])))
    as Hh.
  rewrite Hbefore in Hh; simpl in Hh.
  change (for_each (resource_id :: after) loop_body s1)
    with (bind (loop_body resource_id) (fun _ => for_each after loop_body) s1).
  unfold bind. rewrite (one_skipped _ _ _ _ Hres), Hh; [done|].
  unfold isinstance. by rewrite Hcls.
Qed.
End AmongMocks.

(** ** The command line *)

Lemma endswith_app (s suffix : string) : endswith (s +:+ suffix) suffix = true.
Proof.
  induction s as [|a s IH]; simpl.
  - destruct suffix; simpl; [done|].
    by rewrite Ascii.eqb_refl, String.eqb_refl.
  - rewrite IH. apply orb_true_r.
Qed.

(** [endswith] is true of the strings that have the suffix at their end,
    and of no other. *)
Lemma endswith_spec (s suffix : string) :
  endswith s suffix = true <-> exists prefix, s = prefix +:+ suffix.
Proof.
  split.
  - induction s as [|a s IH]; cbn [endswith].
    + rewrite orb_false_r. intros Heq%String.eqb_eq. by exists "".
    + intros [Heq%String.eqb_eq|Hrest]%orb_true_iff.
      * by exists "".
      * destruct (IH Hrest) as [prefix ->]. by exists (String a prefix).
  - intros [prefix ->]. apply endswith_app.
Qed.

(** C8.  The base URL that [main] works with is the [--url] argument
    itself when that ends with a slash, and the argument with one slash
    appended when it does not.  So it always ends with a slash; a URL that
    already ends with a slash is taken as it is; and normalizing twice is
    normalizing once. *)
Theorem client_site_url_normalized (url : string) :
  (endswith url "/" = true <-> exists prefix, url = prefix +:+ "/") /\
  client_site_url url = (if endswith url "/" then url else url +:+ "/") /\
  endswith (client_site_url url) "/" = true /\
  client_site_url (url +:+ "/") = url +:+ "/" /\
  client_site_url (client_site_url url) = client_site_url url.
Proof.
  assert (Hends : endswith (client_site_url url) "/" = true).
  { unfold client_site_url.
    destruct (endswith url "/") eqn:Hurl; simpl; [done|].
    apply endswith_app. }
  split; [apply endswith_spec|].
  split; [unfold client_site_url; by destruct (endswith url "/")|].
  split; [done|]. split.
  - unfold client_site_url. by rewrite endswith_app.
  - unfold client_site_url at 1. by rewrite Hends.
Qed.

Example client_site_url_examples :
  client_site_url "http://demo.ckan.org" = "http://demo.ckan.org/" /\
  client_site_url "http://demo.ckan.org/" = "http://demo.ckan.org/" /\
  client_site_url "" = "/".
Proof. by repeat split. Qed.

Section MainFacts.
Context {W : Type}.
Variable send : request -> W -> outcome response * W.
Variable bind_port : Z -> W -> outcome unit * W.
Implicit Types (s : state W).

(** With the port bound, [main] runs one cycle on the normalized URL. *)
Lemma main_bound parsed argv0 s :
  fst (bind_port (args_port parsed) (world (st s))) = Returned tt ->
  main send bind_port parsed argv0 s
  = checking_cycle send (client_site_url (args_url parsed))
                   (args_apikey parsed) (guarded bind_port s (args_port parsed)).
Proof.
  intros Hbind.
  unfold main, bind at 1, try_except, lift, socket_bind; cbn.
  by rewrite Hbind.
Qed.

(** C9.  When binding the guard socket raises, [main] tells two cases
    apart.  A [socket.error] whose [errno] is 98, address in use, makes
    the process exit with a message that names the port.  Any other error
    is raised again as it is.  In both cases no cycle runs: no logger is
    set up, nothing is logged and no request is sent. *)
Theorem main_bind_fails parsed argv0 s e :
  fst (bind_port (args_port parsed) (world (st s))) = Raised e ->
  main send bind_port parsed argv0 s
  = (Raised
       (if isinstance e SocketError && bool_decide (exn_errno e = Some 98%Z)
        then Exn SystemExit (port_in_use_msg (args_port parsed) argv0) None
        else e),
     guarded bind_port s (args_port parsed)).
Proof.
  intros Hbind.
  unfold main, bind at 1, try_except, lift, socket_bind, sys_exit, raise;
    cbn.
  rewrite Hbind.
  destruct (isinstance e SocketError); [|done].
  by destruct (bool_decide (exn_errno e = Some 98%Z)).
Qed.
End MainFacts.

(** C9, instance: the default port is taken. *)
Lemma main_bind_fails_witness :
  main scripted (port_fails (Some address_in_use))
       (ParsedArgs "http://demo.ckan.org" VNone 4723) "deadoralive.py"
       (fresh_process [])
  = (Raised (Exn SystemExit (port_in_use_msg 4723 "deadoralive.py") None),
     fresh_process []).
Proof.
  exact (main_bind_fails scripted (port_fails (Some address_in_use))
           (ParsedArgs "http://demo.ckan.org" VNone 4723) "deadoralive.py"
           (fresh_process []) address_in_use eq_refl).
Defined.

Example port_in_use_msg_4723 :
  port_in_use_msg 4723 "deadoralive.py"
  = "Port 4723 is already in use." +:+ newline +:+
    "Is there another instance of deadoralive.py already running?" +:+
    newline +:+
    "To run multiple instances of deadoralive.py at once use the --port <num> option.".
Proof. reflexivity. Qed.

Example test_get_check_and_report :
  calls (journal (snd (cycle test_lister test_resolver test_prober
                             test_reporter "http://demo.ckan.org" (VStr "foo")
                             (fresh_process tt))))
  = CalledLister "http://demo.ckan.org" (VStr "foo") (Returned test_ids) ::
    flat_map (round_calls "http://demo.ckan.org" (VStr "foo"))
      [ test_round "resource_id_1" "url_1" true 0;
        test_round "resource_id_2" "url_2" false 1;
        test_round "resource_id_3" "url_3" true 2 ].
Proof. vm_compute. reflexivity. Qed.

(** C1, instance: the scenario of the test. *)
Lemma cycle_calls_each_once_witness :
  exists rounds,
    map round_id rounds = test_ids /\
    fst (cycle test_lister test_resolver test_prober test_reporter
               "http://demo.ckan.org" (VStr "foo") (fresh_process tt))
    = Returned tt /\
    calls (journal (snd (cycle test_lister test_resolver test_prober
                               test_reporter "http://demo.ckan.org"
                               (VStr "foo") (fresh_process tt))))
    = calls (journal (fresh_process tt)) ++
      CalledLister "http://demo.ckan.org" (VStr "foo") (Returned test_ids) ::
      flat_map (round_calls "http://demo.ckan.org" (VStr "foo")) rounds.
Proof.
  apply (cycle_calls_each_once test_lister test_resolver test_prober
           test_reporter "http://demo.ckan.org" (VStr "foo")
           (fresh_process tt) test_ids (empty_store tt)).
  - reflexivity.
  - intros resource_id st0 Hin. unfold test_ids in Hin. simpl in Hin.
    destruct Hin as [<-|[<-|[<-|[]]]]; eexists _, _; reflexivity.
  - intros url st1. unfold test_prober.
    destruct (bool_decide (url = VStr "url_1") || bool_decide (url = VStr "url_3"));
      eexists _, _; (split; [reflexivity|]); simpl; rewrite deref_newest;
      unfold readable, probe_result; repeat split; eexists; reflexivity.
  - intros resource_id l st2. eexists. reflexivity.
Defined.

(** C5, instance: the second of three resources is refused. *)
Lemma cycle_skips_unresolved_witness :
  exists s1,
    cycle test_lister refusing_resolver test_prober test_reporter
          "http://demo.ckan.org" (VStr "foo") (fresh_process tt)
    = for_each [VStr "resource_id_3"]
        (one refusing_resolver test_prober test_reporter
             "http://demo.ckan.org" (VStr "foo"))
        (State (st s1) 1
           (journal s1 ++
            [CalledResolver "http://demo.ckan.org" (VStr "foo")
               (VStr "resource_id_2")
               (Raised (Exn CouldNotGetURLError
                  "Couldn't get URL for resource resource_id_2: 403 Forbidden"
                  None))] ++
            repeat (LogInfo (skip_msg (VStr "resource_id_2"))) 1)).
Proof.
  pose (s1 := snd (for_each [VStr "resource_id_1"]
                     (one refusing_resolver test_prober test_reporter
                          "http://demo.ckan.org" (VStr "foo"))
                     (State (empty_store tt) 1
                        [CalledLister "http://demo.ckan.org" (VStr "foo") (Returned test_ids)]))).
  exists s1.
  apply (cycle_skips_unresolved test_lister refusing_resolver test_prober
           test_reporter "http://demo.ckan.org" (VStr "foo")
           (fresh_process tt) [VStr "resource_id_1"] (VStr "resource_id_2")
           [VStr "resource_id_3"] (empty_store tt) s1
           (Exn CouldNotGetURLError
              "Couldn't get URL for resource resource_id_2: 403 Forbidden"
              None)
           (st s1)).
  - reflexivity.
  - vm_compute. reflexivity.
  - vm_compute. reflexivity.
  - reflexivity.
Defined.

Example test_skip_journal :
  calls (journal (snd (cycle test_lister refusing_resolver test_prober
                             test_reporter "http://demo.ckan.org" (VStr "foo")
                             (fresh_process tt))))
  = CalledLister "http://demo.ckan.org" (VStr "foo") (Returned test_ids) ::
    round_calls "http://demo.ckan.org" (VStr "foo")
      (test_round "resource_id_1" "url_1" true 0) ++
    CalledResolver "http://demo.ckan.org" (VStr "foo") (VStr "resource_id_2")
      (Raised (Exn CouldNotGetURLError
         "Couldn't get URL for resource resource_id_2: 403 Forbidden" None)) ::
    round_calls "http://demo.ckan.org" (VStr "foo")
      (test_round "resource_id_3" "url_3" true 1).
Proof. vm_compute. reflexivity. Qed.

(** ** When listing fails, and what else ends a cycle *)

Section Listing.
Context {W : Type}.
Variable send : request -> W -> outcome response * W.

(** A listing that is answered with an error status raises
    [CouldNotGetResourceIDsError], with the status and the reason in its
    message. *)
Lemma get_resources_to_check_refused (s : store W) url apikey r :
  fst (send (lister_request url apikey) (world s)) = Returned r ->
  ok r = false ->
  get_resources_to_check send url apikey s
  = (Raised (Exn CouldNotGetResourceIDsError
               ("Couldn't get resource IDs to check: " +:+
                pretty (status_code r) +:+ " " +:+ reason r) None),
     sent send s (lister_request url apikey) (heap s)).
Proof.
  intros Hsend Hok. by rewrite get_resources_to_check_run, Hsend, Hok.
Qed.

(** When the lister raises, the cycle ends there: the listing is the only
    request that went out. *)
Lemma checking_cycle_not_listed (s : state W) url apikey e st0 :
  get_resources_to_check send url apikey (st s) = (Raised e, st0) ->
  checking_cycle send url apikey s
  = (Raised e, State st0 (S (handlers s)) (journal s)) /\
  requested st0 = requested (st s) ++ [lister_request url apikey].
Proof.
  intros Hlist. split.
  - unfold checking_cycle, get_check_and_report, bind, _get_logger, lift.
    cbn [st handlers journal]. by rewrite Hlist.
  - rewrite get_resources_to_check_run in Hlist. by injection Hlist as _ <-.
Qed.
End Listing.

(** C6, the failing input.  The client site lists the resources a and b and
    then stops answering: first while a is resolved, then, in a second run,
    while the result for a is posted.  Neither failure is a listing
    failure, and each ends the cycle with the exception of [requests]: b is
    never resolved, probed or reported. *)
Theorem checking_cycle_aborts_after_listing :
  let site := "http://demo.ckan.org/" in
  let resolving :=
    checking_cycle scripted site VNone
      (fresh_process [Returned two_ids; Raised connection_refused]) in
  let reporting :=
    checking_cycle scripted site VNone
      (fresh_process [Returned two_ids; Returned url_of_a;
                      Returned (plain 200 "OK"); Raised connection_refused]) in
  fst resolving = Raised connection_refused /\
  urls_requested resolving
  = [VStr (site +:+ "deadoralive/get_resources_to_check");
     VStr (site +:+ "deadoralive/get_url_for_resource_id")] /\
  fst reporting = Raised connection_refused /\
  urls_requested reporting
  = [VStr (site +:+ "deadoralive/get_resources_to_check");
     VStr (site +:+ "deadoralive/get_url_for_resource_id");
     VStr "http://example.org/a";
     VStr (site +:+ "deadoralive/upsert")].
Proof. vm_compute. repeat split. Qed.

(** * Further properties of the code *)

(** ** What the reporter posts *)

Lemma merge_setting_lookup (setting : dict) (k : string) :
  merge_setting setting !! k = kept (setting !! k).
Proof.
  unfold merge_setting. rewrite map_lookup_filter.
  by destruct (setting !! k) as [[]|].
Qed.

Section Reporter.
Context {W : Type}.
Variable send : request -> W -> outcome response * W.
Implicit Types (s : store W) (apikey resource_id : value).

(** X1.  The reporter pays no attention to the answer of the client site:
    it returns whatever the status of the response, an error status
    included, and it raises exactly when [requests.post] raises, with that
    exception. *)
Theorem upsert_result_ignores_response s url apikey resource_id result :
  fst (upsert_result send url apikey resource_id result s)
  = match fst (send (reporter_request url apikey resource_id
                                      (deref (heap s) result)) (world s)) with
    | Returned _ => Returned tt
    | Raised e => Raised e
    end.
Proof. by rewrite upsert_result_run. Qed.

(** X2.  The reporter sends one POST to the upsert endpoint.  Its
    parameters are the items of the result that are not [None], except that
    [resource_id] is the ID of the call, also when the result has an item of
    that name; an ID that is [None] leaves no parameter. *)
Theorem upsert_result_params s url apikey resource_id result :
  exists req,
    requested (snd (upsert_result send url apikey resource_id result s))
    = requested s ++ [req] /\
    req_method req = POST /\
    req_url req = VStr (url +:+ "deadoralive/upsert") /\
    req_params req !! "resource_id" = kept (Some resource_id) /\
    forall k, k <> "resource_id" ->
      req_params req !! k = kept (deref (heap s) result !! k).
Proof.
  rewrite upsert_result_run; cbn. eexists. split; [reflexivity|]. cbn.
  repeat split.
  - by rewrite merge_setting_lookup, lookup_insert_eq.
  - intros k Hk. by rewrite merge_setting_lookup, lookup_insert_ne.
Qed.

(** X3.  Probing and then reporting: when the probe met no response, the
    report that goes to the client site says [alive] false and gives the
    text of the exception as reason, and has no [status] parameter at
    all. *)
Theorem report_of_failed_probe s url apikey resource_id site e :
  fst (send (probe_request url) (world s)) = Raised e ->
  isinstance e RequestException = true ->
  exists req,
    requested (snd (upsert_result send site apikey resource_id (length (heap s))
                 (snd (check_url send url s))))
    = requested s ++ [probe_request url; req] /\
    req_params req !! "status" = None /\
    req_params req !! "alive" = Some (VBool false) /\
    req_params req !! "reason" = Some (VStr (exn_str e)) /\
    req_params req !! "url" = kept (Some url).
Proof.
  intros Hsend Hcls.
  rewrite (check_url_failed _ _ _ _ Hsend Hcls). cbn [snd].
  rewrite upsert_result_run. unfold probed; cbn. rewrite deref_newest.
  eexists. split; [by rewrite <- app_assoc|]. cbn.
  rewrite !merge_setting_lookup. unfold probe_result.
  repeat split; by newest.
Qed.


(** X5.  The resolver sends one GET to the endpoint for URLs, with the
    resource ID as the parameter [resource_id], and does not touch the
    heap.  It raises [CouldNotGetURLError], naming the resource, the status
    and the reason, when the answer has an error status; an answer with any
    other status is decoded and returned; and an exception of
    [requests.get] leaves the function as it is. *)
Theorem get_url_for_id_behaviour s url apikey resource_id :
  let req := Request GET (VStr (url +:+ "deadoralive/get_url_for_resource_id"))
                     (merge_setting {[ "Authorization" := apikey ]})
                     (merge_setting {[ "resource_id" := resource_id ]}) in
  req_params req !! "resource_id" = kept (Some resource_id) /\
  requested (snd (get_url_for_id send url apikey resource_id s)) = requested s ++ [req] /\
  heap (snd (get_url_for_id send url apikey resource_id s)) = heap s /\
  fst (get_url_for_id send url apikey resource_id s)
  = match fst (send req (world s)) with
    | Returned r =>
        if is_error_status (status_code r) then
          Raised (Exn CouldNotGetURLError
                    ("Couldn't get URL for resource " +:+ py_str resource_id +:+
                     ": " +:+ pretty (status_code r) +:+ " " +:+ reason r)
                    None)
        else json_value r
    | Raised e => Raised e
    end.
Proof.
  rewrite get_url_for_id_run; cbn. repeat split.
  - by rewrite merge_setting_lookup, lookup_singleton_eq.
  - unfold resolver_request. destruct (fst (send _ _)) as [r|e]; [|done].
    unfold ok. by destruct (is_error_status (status_code r)).
Qed.
End Reporter.

(** ** More on the orchestrator among mocks *)

Lemma not_could_not_get_url (e : exn) :
  exn_cls e <> CouldNotGetURLError -> isinstance e CouldNotGetURLError = false.
Proof.
  unfold isinstance, issubclass. intros Hcls.
  by destruct (exn_cls e).
Qed.

Section MoreAmongMocks.
Context {W : Type}.
Variable f_list : string -> value -> M (store W) (list value).
Variable f_resolve : string -> value -> value -> M (store W) value.
Variable f_probe : value -> M (store W) loc.
Variable f_report : string -> value -> value -> loc -> M (store W) unit.
Variable client_site_url : string.
Variable apikey : value.

Local Abbreviation loop_body :=
  (one f_resolve f_probe f_report client_site_url apikey).
Local Abbreviation the_cycle :=
  (cycle f_list f_resolve f_probe f_report client_site_url apikey).

(** The loop stops at the first exception. *)
Lemma for_each_raised {A} (xs ys : list A) (x : A)
    (body : A -> M (state W) unit) s s1 e s2 :
  for_each xs body s = (Returned tt, s1) ->
  body x s1 = (Raised e, s2) ->
  for_each (xs ++ x :: ys) body s = (Raised e, s2).
Proof.
  intros Hxs Hx. rewrite (for_each_app _ _ _ _ _ Hxs). simpl.
  unfold bind. by rewrite Hx.
Qed.

(** Each resource that the loop body gets through is logged once. *)
Lemma one_logs s resource_id :
  fst (loop_body resource_id s) = Returned tt ->
  log_records (journal (snd (loop_body resource_id s)))
  = (log_records (journal s) + handlers s)%nat.
Proof.
  destruct (one_run f_resolve f_probe f_report client_site_url apikey s
              resource_id) as (o & st1 & events & -> & Hlogs).
  cbn [fst snd journal]. intros ->. by rewrite log_records_app, Hlogs.
Qed.

Lemma for_each_logs ids s :
  fst (for_each ids loop_body s) = Returned tt ->
  log_records (journal (snd (for_each ids loop_body s)))
  = (log_records (journal s) + handlers s * length ids)%nat.
Proof.
  revert s. induction ids as [|resource_id ids IH]; intros s; simpl.
  - intros _. lia.
  - unfold bind.
    pose proof (one_logs s resource_id) as Hlogs.
    pose proof (one_handlers f_resolve f_probe f_report client_site_url
                  apikey s resource_id) as Hh.
    destruct (loop_body resource_id s) as [[[]|e] s1]; simpl in *; [|done].
    intros Hret. rewrite (IH s1 Hret), Hlogs, Hh by done. lia.
Qed.

(** The handlers attached when a part of the loop is through. *)
Lemma for_each_handlers_after ids (s s1 : state W) :
  for_each ids loop_body s = (Returned tt, s1) -> handlers s1 = handlers s.
Proof.
  intros Hids.
  pose proof (for_each_handlers f_resolve f_probe f_report client_site_url
                apikey ids s) as Hh.
  by rewrite Hids in Hh.
Qed.

(** X6.  Every cycle attaches one more handler to the logger, whether it
    returns or raises; the handlers of earlier cycles stay attached. *)
Theorem cycle_attaches_handler s :
  handlers (snd (cycle f_list f_resolve f_probe f_report client_site_url
                       apikey s))
  = S (handlers s).
Proof.
  destruct (f_list client_site_url apikey (st s)) as [[ids|e] st0] eqn:Hlist.
  - rewrite (cycle_listed _ _ _ _ _ _ _ _ _ Hlist).
    by rewrite for_each_handlers.
  - by rewrite (cycle_not_listed _ _ _ _ _ _ _ _ _ Hlist).
Qed.

(** X7.  A cycle that returns has logged each listed resource once, as
    skipped or as checked, and each record is emitted by every handler
    attached: with [h] handlers attached before, [h + 1] records per
    resource. *)
Theorem cycle_logs_each_resource s ids st0 :
  f_list client_site_url apikey (st s) = (Returned ids, st0) ->
  fst (the_cycle s) = Returned tt ->
  log_records (journal (snd (the_cycle s)))
  = (log_records (journal s) + S (handlers s) * length ids)%nat.
Proof.
  intros Hlist. rewrite (cycle_listed _ _ _ _ _ _ _ _ _ Hlist).
  intros Hret. rewrite (for_each_logs _ _ Hret). cbn [journal handlers].
  rewrite log_records_app. cbn. lia.
Qed.

(** X8.  The loop body reads the items [status], [reason] and [alive] of
    a result in this order.  When [k] is the first of them that the result
    lacks, the loop body raises [KeyError(k)] right after the call of the
    prober: nothing is logged and the reporter is not called. *)
Theorem one_unreadable_result s resource_id url st1 l st2 k :
  f_resolve client_site_url apikey resource_id (st s) = (Returned url, st1) ->
  f_probe url st1 = (Returned l, st2) ->
  first_missing (deref (heap st2) l) = Some k ->
  loop_body resource_id s
  = (Raised (key_error k),
     State st2 (handlers s)
           (journal s ++
            [CalledResolver client_site_url apikey resource_id
               (Returned url);
             CalledProber url (Returned (l, deref (heap st2) l))])).
Proof. apply one_unreadable. Qed.

(** X9.  An exception of the resolver that is not a
    [CouldNotGetURLError] ends the cycle: the cycle raises it right after
    the call of the resolver, nothing is logged for the resource and the
    resources listed after it are not looked at. *)
Theorem cycle_ends_when_resolver_raises s before resource_id after st0 s1 e st1 :
  f_list client_site_url apikey (st s)
  = (Returned (before ++ resource_id :: after), st0) ->
  for_each before loop_body
    (State st0 (S (handlers s))
       (journal s ++
        [CalledLister client_site_url apikey
           (Returned (before ++ resource_id :: after))]))
  = (Returned tt, s1) ->
  f_resolve client_site_url apikey resource_id (st s1) = (Raised e, st1) ->
  exn_cls e <> CouldNotGetURLError ->
  the_cycle s
  = (Raised e,
     State st1 (S (handlers s))
           (journal s1 ++
            [CalledResolver client_site_url apikey resource_id (Raised e)])).
Proof.
  intros Hlist Hbefore Hres Hcls.
  rewrite (cycle_listed _ _ _ _ _ _ _ _ _ Hlist).
  pose proof (for_each_handlers_after _ _ _ Hbefore) as Hh. cbn in Hh.
  apply (for_each_raised _ _ _ _ _ _ _ _ Hbefore). rewrite <- Hh.
  apply one_resolver_raised; [done|]. by apply not_could_not_get_url.
Qed.

(** X10.  An exception of the prober ends the cycle: the cycle raises it
    right after the call of the prober, and the reporter is not called for
    the resource. *)
Theorem cycle_ends_when_prober_raises s before resource_id after st0 s1 url
    st1 e st2 :
  f_list client_site_url apikey (st s)
  = (Returned (before ++ resource_id :: after), st0) ->
  for_each before loop_body
    (State st0 (S (handlers s))
       (journal s ++
        [CalledLister client_site_url apikey
           (Returned (before ++ resource_id :: after))]))
  = (Returned tt, s1) ->
  f_resolve client_site_url apikey resource_id (st s1) = (Returned url, st1) ->
  f_probe url st1 = (Raised e, st2) ->
  the_cycle s
  = (Raised e,
     State st2 (S (handlers s))
           (journal s1 ++
            [CalledResolver client_site_url apikey resource_id (Returned url);
             CalledProber url (Raised e)])).
Proof.
  intros Hlist Hbefore Hres Hprobe.
  rewrite (cycle_listed _ _ _ _ _ _ _ _ _ Hlist).
  pose proof (for_each_handlers_after _ _ _ Hbefore) as Hh. cbn in Hh.
  apply (for_each_raised _ _ _ _ _ _ _ _ Hbefore). rewrite <- Hh.
  by eapply one_prober_raised.
Qed.

(** X11.  An exception of the reporter ends the cycle: the resource has
    been resolved, probed and logged, the cycle raises the exception right
    after the call of the reporter, and the resources listed after it are
    not looked at. *)
Theorem cycle_ends_when_reporter_raises s before resource_id after st0 s1 url
    st1 l st2 status reason alive e st3 :
  f_list client_site_url apikey (st s)
  = (Returned (before ++ resource_id :: after), st0) ->
  for_each before loop_body
    (State st0 (S (handlers s))
       (journal s ++
        [CalledLister client_site_url apikey
           (Returned (before ++ resource_id :: after))]))
  = (Returned tt, s1) ->
  f_resolve client_site_url apikey resource_id (st s1) = (Returned url, st1) ->
  f_probe url st1 = (Returned l, st2) ->
  deref (heap st2) l !! "status" = Some status ->
  deref (heap st2) l !! "reason" = Some reason ->
  deref (heap st2) l !! "alive" = Some alive ->
  f_report client_site_url apikey resource_id l st2 = (Raised e, st3) ->
  the_cycle s
  = (Raised e,
     State st3 (S (handlers s))
           (journal s1 ++
            [CalledResolver client_site_url apikey resource_id (Returned url);
             CalledProber url (Returned (l, deref (heap st2) l))] ++
            repeat (LogInfo (checked_msg url resource_id status reason alive))
                   (S (handlers s)) ++
            [CalledReporter client_site_url apikey resource_id l
                            (deref (heap st2) l) (Raised e)])).
Proof.
  intros Hlist Hbefore Hres Hprobe Hs Hr Ha Hreport.
  rewrite (cycle_listed _ _ _ _ _ _ _ _ _ Hlist).
  pose proof (for_each_handlers_after _ _ _ Hbefore) as Hh. cbn in Hh.
  apply (for_each_raised _ _ _ _ _ _ _ _ Hbefore). rewrite <- Hh.
  by eapply one_reported.
Qed.
End MoreAmongMocks.

(** ** The cycle of [main] *)

Section Sending.
Context {W : Type}.
Variable P : request -> Prop.

Lemma sends_only_ret {A} (a : A) : sends_only (W:=W) P (ret a).
Proof. intros s. exists []. by rewrite app_nil_r. Qed.

Lemma sends_only_bind {A B} (m : M (state W) A) (k : A -> M (state W) B) :
  sends_only P m -> (forall a, sends_only P (k a)) -> sends_only P (bind m k).
Proof.
  intros Hm Hk s. unfold bind.
  destruct (Hm s) as (new1 & H1 & HP1).
  destruct (m s) as [[a|e] s1]; simpl in *.
  - destruct (Hk a s1) as (new2 & H2 & HP2).
    exists (new1 ++ new2). rewrite H2, H1, app_assoc.
    split; [done|]. by apply Forall_app.
  - by exists new1.
Qed.

Lemma sends_only_try_except {A} (body : M (state W) A) handler on_error :
  sends_only P body -> (forall e, sends_only P (on_error e)) ->
  sends_only P (try_except body handler on_error).
Proof.
  intros Hbody Hon s. unfold try_except.
  destruct (Hbody s) as (new1 & H1 & HP1).
  destruct (body s) as [[a|e] s1]; simpl in *.
  - by exists new1.
  - destruct (isinstance e handler); [|by exists new1].
    destruct (Hon e s1) as (new2 & H2 & HP2).
    exists (new1 ++ new2). rewrite H2, H1, app_assoc.
    split; [done|]. by apply Forall_app.
Qed.

Lemma sends_only_logger_info (msg : string) :
  sends_only (W:=W) P (logger_info msg).
Proof. intros s. exists []. by rewrite app_nil_r. Qed.

Lemma sends_only_lift {A} (m : M (store W) A) :
  (forall st0, exists new,
     requested (snd (m st0)) = requested st0 ++ new /\ Forall P new) ->
  sends_only P (lift m).
Proof. intros Hm s. apply Hm. Qed.

Lemma sends_only_getitem (l : loc) (k : string) :
  sends_only (W:=W) P (lift (dict_getitem l k)).
Proof.
  apply sends_only_lift. intros st0. exists []. unfold dict_getitem.
  destruct (deref (heap st0) l !! k); by rewrite app_nil_r.
Qed.

Lemma sends_only_for_each {A} (xs : list A) (body : A -> M (state W) unit) :
  (forall x, sends_only P (body x)) -> sends_only P (for_each xs body).
Proof.
  intros Hbody. induction xs as [|x xs IH]; simpl.
  - apply sends_only_ret.
  - by apply sends_only_bind.
Qed.
End Sending.

Section RealCycle.
Context {W : Type}.
Variable send : request -> W -> outcome response * W.
Variable bind_port : Z -> W -> outcome unit * W.
Variable site : string.
Variable apikey : value.
Implicit Types (s : state W) (resource_id : value).

Lemma check_one_sends resource_id :
  sends_only (cycle_request site apikey)
             (check_one send site apikey resource_id).
Proof.
  unfold check_one, check_and_report_one.
  apply sends_only_bind.
  { apply sends_only_try_except.
    - apply sends_only_bind; [|intros; apply sends_only_ret].
      apply sends_only_lift. intros st0. rewrite get_url_for_id_run; cbn.
      eexists [_]. split; [done|]. constructor; [|done]. left. by eexists.
    - intros e. apply sends_only_bind; [apply sends_only_logger_info|].
      intros; apply sends_only_ret. }
  intros [url|]; [|apply sends_only_ret].
  apply sends_only_bind.
  { apply sends_only_lift. intros st0.
    exists [probe_request url]. split.
    - destruct (fst (send (probe_request url) (world st0))) as [r|e] eqn:Hsend.
      + by rewrite (check_url_responded _ _ _ _ Hsend).
      + destruct (isinstance e RequestException) eqn:Hcls.
        * by rewrite (check_url_failed _ _ _ _ Hsend Hcls).
        * by rewrite (check_url_escaped _ _ _ _ Hsend Hcls).
    - constructor; [|done]. right; left. by eexists. }
  intros result.
  apply sends_only_bind; [apply sends_only_getitem|]. intros status.
  apply sends_only_bind; [apply sends_only_getitem|]. intros reason.
  apply sends_only_bind; [apply sends_only_getitem|]. intros alive.
  apply sends_only_bind.
  { destruct (py_truthy alive); apply sends_only_logger_info. }
  intros _. apply sends_only_lift. intros st0.
  rewrite upsert_result_run; cbn.
  eexists [_]. split; [done|]. constructor; [|done]. right; right.
  by eexists _, _.
Qed.

(** X12.  The calls of [requests] in a cycle of [main].  The first is the
    listing request.  Each one after it is the request of the resolver for
    some resource (a GET of the endpoint for URLs of the client site, with
    the API key), the request of the prober for some URL (a GET with no
    headers and no parameters passed), or the request of the reporter for
    some resource and result (a POST to the upsert endpoint of the client
    site, with the API key).  So the program passes the API key to
    [requests] only together with a URL of the client site, never with a
    URL that it probes.  No call that was made before is forgotten. *)
Theorem checking_cycle_requests s :
  exists rest,
    requested (st (snd (checking_cycle send site apikey s)))
    = requested (st s) ++ lister_request site apikey :: rest /\
    Forall (cycle_request site apikey) rest.
Proof.
  destruct (get_resources_to_check send site apikey (st s))
    as [[ids|e] st0] eqn:Hlist.
  - assert (Hreq : requested st0
                   = requested (st s) ++ [lister_request site apikey]).
    { rewrite get_resources_to_check_run in Hlist. by injection Hlist as _ <-. }
    destruct (sends_only_for_each _ ids _ check_one_sends
                (State st0 (S (handlers s)) (journal s)))
      as (new & Hnew & HP).
    exists new. split.
    + unfold checking_cycle, get_check_and_report, bind, _get_logger, lift.
      cbn [st handlers journal]. rewrite Hlist. cbn [fst snd].
      change (for_each ids _ ?s0)
        with (for_each ids (check_one send site apikey) s0).
      rewrite Hnew. cbn [st]. by rewrite Hreq, <- app_assoc.
    + exact HP.
  - exists []. split; [|done].
    destruct (checking_cycle_not_listed send s _ _ _ _ Hlist) as [-> Hreq].
    done.
Qed.

(** X13.  A resource for which the client site answers the resolver with an
    error status is skipped by the cycle of [main]: the loop body returns,
    having sent that one request, logged the skip on every handler and left
    the heap alone. *)
Theorem check_one_refused s resource_id r :
  fst (send (resolver_request site apikey resource_id) (world (st s)))
  = Returned r ->
  is_error_status (status_code r) = true ->
  check_one send site apikey resource_id s
  = (Returned tt,
     State (sent send (st s) (resolver_request site apikey resource_id)
                 (heap (st s)))
           (handlers s)
           (journal s ++ repeat (LogInfo (skip_msg resource_id)) (handlers s))).
Proof.
  intros Hsend Herr.
  unfold check_one, check_and_report_one, bind, try_except, lift,
    logger_info, ret.
  cbn [st handlers journal fst snd].
  rewrite get_url_for_id_run, Hsend. unfold ok. rewrite Herr. by cbn.
Qed.

(** X14.  From the command line to the client site: when the port is free
    and the client site answers the listing with an error status, [main]
    ends with [CouldNotGetResourceIDsError], which carries the status and
    the reason, after one request, sent to the listing endpoint under the
    normalized base URL. *)
Theorem main_listing_refused parsed argv0 s r :
  fst (bind_port (args_port parsed) (world (st s))) = Returned tt ->
  fst (send (lister_request (client_site_url (args_url parsed))
                            (args_apikey parsed))
            (snd (bind_port (args_port parsed) (world (st s)))))
  = Returned r ->
  is_error_status (status_code r) = true ->
  main send bind_port parsed argv0 s
  = (Raised (Exn CouldNotGetResourceIDsError
               ("Couldn't get resource IDs to check: " +:+
                pretty (status_code r) +:+ " " +:+ reason r) None),
     State (sent send (st (guarded bind_port s (args_port parsed)))
                 (lister_request (client_site_url (args_url parsed))
                                 (args_apikey parsed))
                 (heap (st s)))
           (S (handlers s)) (journal s)).
Proof.
  intros Hbind Hsend Herr.
  rewrite (main_bound _ _ _ _ _ Hbind).
  assert (Hok : ok r = false) by (unfold ok; by rewrite Herr).
  destruct (checking_cycle_not_listed send
              (guarded bind_port s (args_port parsed))
              (client_site_url (args_url parsed)) (args_apikey parsed) _ _
              (get_resources_to_check_refused send
                 (st (guarded bind_port s (args_port parsed)))
                 (client_site_url (args_url parsed)) (args_apikey parsed)
                 r Hsend Hok))
    as [-> _].
  done.
Qed.
End RealCycle.

(** ** Instances *)

(** X3, instance: a host that cannot be reached, reported to a client site
    that cannot be reached either. *)
Lemma report_of_failed_probe_witness :
  exists req,
    requested (snd (upsert_result scripted "http://demo.ckan.org/" (VStr "foo")
                 (VStr "resource_id_1") 0%nat
                 (snd (check_url scripted (VStr "http://example.org/")
                                 (empty_store [])))))
    = [probe_request (VStr "http://example.org/"); req] /\
    req_params req !! "status" = None /\
    req_params req !! "alive" = Some (VBool false) /\
    req_params req !! "reason" = Some (VStr "Connection refused") /\
    req_params req !! "url" = Some (VStr "http://example.org/").
Proof.
  exact (report_of_failed_probe scripted (empty_store [])
           (VStr "http://example.org/") (VStr "foo") (VStr "resource_id_1")
           "http://demo.ckan.org/" connection_refused eq_refl eq_refl).
Defined.


(** X7, instance: the scenario of the test logs three records. *)
Lemma cycle_logs_each_resource_witness :
  log_records
    (journal (snd (cycle test_lister test_resolver test_prober test_reporter
                         "http://demo.ckan.org" (VStr "foo")
                         (fresh_process tt))))
  = (0 + 1 * 3)%nat.
Proof.
  exact (cycle_logs_each_resource test_lister test_resolver test_prober
           test_reporter "http://demo.ckan.org" (VStr "foo")
           (fresh_process tt) test_ids (empty_store tt) eq_refl eq_refl).
Defined.

(** X8, instance: a prober that returns the URL and nothing else.  All
    three items are missing, and the exception names the first,
    [status]. *)
Lemma one_unreadable_result_witness :
  first_missing ({[ "url" := VStr "url_1" ]} : dict) = Some "status" /\
  ({[ "url" := VStr "url_1" ]} : dict) !! "reason" = None /\
  ({[ "url" := VStr "url_1" ]} : dict) !! "alive" = None /\
  exn_str (key_error "status") = "'status'" /\
  one test_resolver careless_prober test_reporter "http://demo.ckan.org"
      (VStr "foo") (VStr "resource_id_1") (fresh_process tt)
  = (Raised (key_error "status"),
     State (Store [{[ "url" := VStr "url_1" ]}] tt []) 0
           [CalledResolver "http://demo.ckan.org" (VStr "foo")
              (VStr "resource_id_1") (Returned (VStr "url_1"));
            CalledProber (VStr "url_1")
              (Returned (0%nat, {[ "url" := VStr "url_1" ]}))]).
Proof.
  repeat (split; [reflexivity|]).
  exact (one_unreadable_result test_resolver careless_prober test_reporter
           "http://demo.ckan.org" (VStr "foo") (fresh_process tt)
           (VStr "resource_id_1") (VStr "url_1") (empty_store tt) 0%nat
           (Store [{[ "url" := VStr "url_1" ]}] tt []) "status"
           eq_refl eq_refl eq_refl).
Defined.

(** X9, instance: the client site cannot be reached for the second of
    three resources. *)
Lemma cycle_ends_when_resolver_raises_witness :
  exists s1,
    cycle test_lister unreachable_resolver test_prober test_reporter
          "http://demo.ckan.org" (VStr "foo") (fresh_process tt)
    = (Raised connection_refused,
       State (st s1) 1
             (journal s1 ++
              [CalledResolver "http://demo.ckan.org" (VStr "foo")
                 (VStr "resource_id_2") (Raised connection_refused)])).
Proof.
  pose (s1 := snd (for_each [VStr "resource_id_1"]
                     (one unreachable_resolver test_prober test_reporter
                          "http://demo.ckan.org" (VStr "foo"))
                     (State (empty_store tt) 1
                        [CalledLister "http://demo.ckan.org" (VStr "foo") (Returned test_ids)]))).
  exists s1.
  apply (cycle_ends_when_resolver_raises test_lister unreachable_resolver
           test_prober test_reporter "http://demo.ckan.org" (VStr "foo")
           (fresh_process tt) [VStr "resource_id_1"] (VStr "resource_id_2")
           [VStr "resource_id_3"] (empty_store tt) s1 connection_refused
           (st s1)).
  - reflexivity.
  - vm_compute. reflexivity.
  - vm_compute. reflexivity.
  - discriminate.
Defined.

(** X10, instance: the prober raises for the second of three resources. *)
Lemma cycle_ends_when_prober_raises_witness :
  exists s1,
    cycle test_lister test_resolver raising_prober test_reporter
          "http://demo.ckan.org" (VStr "foo") (fresh_process tt)
    = (Raised (Exn ValueError "Invalid IPv6 URL" None),
       State (st s1) 1
             (journal s1 ++
              [CalledResolver "http://demo.ckan.org" (VStr "foo")
                 (VStr "resource_id_2") (Returned (VStr "url_2"));
               CalledProber (VStr "url_2")
                 (Raised (Exn ValueError "Invalid IPv6 URL" None))])).
Proof.
  pose (s1 := snd (for_each [VStr "resource_id_1"]
                     (one test_resolver raising_prober test_reporter
                          "http://demo.ckan.org" (VStr "foo"))
                     (State (empty_store tt) 1
                        [CalledLister "http://demo.ckan.org" (VStr "foo") (Returned test_ids)]))).
  exists s1.
  apply (cycle_ends_when_prober_raises test_lister test_resolver
           raising_prober test_reporter "http://demo.ckan.org" (VStr "foo")
           (fresh_process tt) [VStr "resource_id_1"] (VStr "resource_id_2")
           [VStr "resource_id_3"] (empty_store tt) s1 (VStr "url_2") (st s1)
           (Exn ValueError "Invalid IPv6 URL" None) (st s1)).
  - reflexivity.
  - vm_compute. reflexivity.
  - vm_compute. reflexivity.
  - vm_compute. reflexivity.
Defined.

(** X11, instance: the result for the second of three resources cannot be
    posted. *)
Lemma cycle_ends_when_reporter_raises_witness :
  exists (s1 : state unit) (st3 : store unit) (events : list event),
    cycle test_lister test_resolver test_prober unreachable_reporter
          "http://demo.ckan.org" (VStr "foo") (fresh_process tt)
    = (Raised connection_refused,
       State st3 1 (journal s1 ++ events)) /\
    calls events
    = [CalledResolver "http://demo.ckan.org" (VStr "foo")
         (VStr "resource_id_2") (Returned (VStr "url_2"));
       CalledProber (VStr "url_2")
         (Returned (1%nat, round_items
                             (test_round "resource_id_2" "url_2" false 1)));
       CalledReporter "http://demo.ckan.org" (VStr "foo")
         (VStr "resource_id_2") 1%nat
         (round_items (test_round "resource_id_2" "url_2" false 1))
         (Raised connection_refused)].
Proof.
  pose (s1 := snd (for_each [VStr "resource_id_1"]
                     (one test_resolver test_prober unreachable_reporter
                          "http://demo.ckan.org" (VStr "foo"))
                     (State (empty_store tt) 1
                        [CalledLister "http://demo.ckan.org" (VStr "foo") (Returned test_ids)]))).
  pose (st2 := snd (test_prober (VStr "url_2") (st s1))).
  exists s1, st2,
    ([CalledResolver "http://demo.ckan.org" (VStr "foo")
        (VStr "resource_id_2") (Returned (VStr "url_2"));
      CalledProber (VStr "url_2") (Returned (1%nat, deref (heap st2) 1%nat))] ++
     repeat (LogInfo (checked_msg (VStr "url_2") (VStr "resource_id_2")
                        (VInt 500) (VStr "Internal Server Error")
                        (VBool false))) 1 ++
     [CalledReporter "http://demo.ckan.org" (VStr "foo")
        (VStr "resource_id_2") 1%nat (deref (heap st2) 1%nat)
        (Raised connection_refused)]).
  split.
  - apply (cycle_ends_when_reporter_raises test_lister test_resolver
             test_prober unreachable_reporter "http://demo.ckan.org"
             (VStr "foo") (fresh_process tt) [VStr "resource_id_1"]
             (VStr "resource_id_2") [VStr "resource_id_3"] (empty_store tt)
             s1 (VStr "url_2") (st s1) 1%nat st2 (VInt 500)
             (VStr "Internal Server Error") (VBool false) connection_refused
             st2).
    + reflexivity.
    + vm_compute. reflexivity.
    + vm_compute. reflexivity.
    + vm_compute. reflexivity.
    + vm_compute. reflexivity.
    + vm_compute. reflexivity.
    + vm_compute. reflexivity.
    + vm_compute. reflexivity.
  - vm_compute. reflexivity.
Defined.

(** X13, instance: the client site forbids the resource. *)
Lemma check_one_refused_witness :
  check_one scripted "http://demo.ckan.org/" (VStr "foo")
            (VStr "resource_id_1")
            (State (empty_store [Returned (plain 403 "Forbidden")]) 1 [])
  = (Returned tt,
     State (Store [] []
                  [resolver_request "http://demo.ckan.org/" (VStr "foo")
                                    (VStr "resource_id_1")])
           1 [LogInfo (skip_msg (VStr "resource_id_1"))]).
Proof.
  exact (check_one_refused scripted "http://demo.ckan.org/" (VStr "foo")
           (State (empty_store [Returned (plain 403 "Forbidden")]) 1 [])
           (VStr "resource_id_1") (plain 403 "Forbidden") eq_refl eq_refl).
Defined.

(** X14, instance: a client site that is out of order. *)
Lemma main_listing_refused_witness :
  main scripted (port_fails None)
       (ParsedArgs "http://demo.ckan.org" VNone 4723) "deadoralive.py"
       (fresh_process [Returned (plain 500 "Internal Server Error")])
  = (Raised (Exn CouldNotGetResourceIDsError
               "Couldn't get resource IDs to check: 500 Internal Server Error"
               None),
     State (Store [] []
                  [lister_request "http://demo.ckan.org/" VNone])
           1 []).
Proof.
  exact (main_listing_refused scripted (port_fails None)
           (ParsedArgs "http://demo.ckan.org" VNone 4723) "deadoralive.py"
           (fresh_process [Returned (plain 500 "Internal Server Error")])
           (plain 500 "Internal Server Error") eq_refl eq_refl eq_refl).
Defined.

(** ** One resource in the cycle of [main] *)

Lemma getitem_newest {W} (h : list dict) (d : dict) (w : W)
    (wr : list request) (k : string) (v : value) :
  d !! k = Some v ->
  dict_getitem (length h) k (Store (h ++ [d]) w wr)
  = (Returned v, Store (h ++ [d]) w wr).
Proof.
  intros Hk. unfold dict_getitem. cbn [heap]. by rewrite deref_newest, Hk.
Qed.

Section OneResource.
Context {W : Type}.
Variable send : request -> W -> outcome response * W.
Variable site : string.
Variable apikey : value.
Implicit Types (s : state W) (resource_id : value).

(** X15.  One resource, from the resolver to the reporter: when the client
    site answers the resolver with the URL and the URL answers the probe,
    the loop body of [main] calls [requests] three times, for the resolver
    endpoint, for the URL and for the upsert endpoint (the requests that
    [requests] makes on the network for a call are not modelled); it leaves
    two new dicts, the result and the copy that was posted with the
    resource ID; it logs the outcome on every handler; and it returns
    unless the POST raises. *)
Theorem check_one_checked s resource_id r1 url r2 :
  let req1 := resolver_request site apikey resource_id in
  let w1 := snd (send req1 (world (st s))) in
  let w2 := snd (send (probe_request url) w1) in
  let alive := VBool (negb (is_error_status (status_code r2))) in
  let result :=
    probe_result url alive (VInt (status_code r2)) (VStr (reason r2)) in
  let req3 := reporter_request site apikey resource_id result in
  fst (send req1 (world (st s))) = Returned r1 ->
  is_error_status (status_code r1) = false ->
  json_value r1 = Returned url ->
  fst (send (probe_request url) w1) = Returned r2 ->
  check_one send site apikey resource_id s
  = (match fst (send req3 w2) with
     | Returned _ => Returned tt
     | Raised e => Raised e
     end,
     State (Store (heap (st s) ++
                   [result; <["resource_id" := resource_id]> result])
                  (snd (send req3 w2))
                  (requested (st s) ++ [req1; probe_request url; req3]))
           (handlers s)
           (journal s ++
            repeat (LogInfo (checked_msg url resource_id
                               (VInt (status_code r2)) (VStr (reason r2))
                               alive))
                   (handlers s))).
Proof.
  cbv zeta. intros Hsend1 Herr Hjson Hsend2.
  unfold check_one, check_and_report_one, bind, try_except, lift, ret.
  cbn [st handlers journal fst snd].
  rewrite get_url_for_id_run, Hsend1. unfold ok. rewrite Herr, Hjson.
  cbn [fst snd negb st handlers journal].
  rewrite (check_url_responded send
             (sent send (st s) (resolver_request site apikey resource_id)
                   (heap (st s))) url r2 Hsend2).
  cbn [fst snd st handlers journal].
  unfold probed, sent. cbn [heap world requested].
  rewrite (getitem_newest _ _ _ _ "status" (VInt (status_code r2)))
    by (unfold probe_result; by newest).
  cbn [fst snd].
  rewrite (getitem_newest _ _ _ _ "reason" (VStr (reason r2)))
    by (unfold probe_result; by newest).
  cbn [fst snd].
  rewrite (getitem_newest _ _ _ _ "alive"
             (VBool (negb (is_error_status (status_code r2)))))
    by (unfold probe_result; by newest).
  cbn [fst snd]. unfold checked_msg, logger_info.
  cbn [py_truthy].
  destruct (negb (is_error_status (status_code r2)));
    cbn [st handlers journal fst snd];
    rewrite upsert_result_run; unfold sent; cbn [heap world requested fst snd];
    rewrite deref_newest, <- !app_assoc; reflexivity.
Qed.

(** X16.  The lister sends one GET to the listing endpoint, without
    parameters, and does not touch the heap.  It raises
    [CouldNotGetResourceIDsError], with the status and the reason, when the
    answer has an error status; an answer with any other status is decoded
    and returned; and an exception of [requests.get] leaves the function as
    it is. *)
Theorem get_resources_to_check_behaviour (st0 : store W) url :
  let req := Request GET (VStr (url +:+ "deadoralive/get_resources_to_check"))
                     (merge_setting {[ "Authorization" := apikey ]}) ∅ in
  requested (snd (get_resources_to_check send url apikey st0)) = requested st0 ++ [req] /\
  heap (snd (get_resources_to_check send url apikey st0)) = heap st0 /\
  fst (get_resources_to_check send url apikey st0)
  = match fst (send req (world st0)) with
    | Returned r =>
        if is_error_status (status_code r) then
          Raised (Exn CouldNotGetResourceIDsError
                    ("Couldn't get resource IDs to check: " +:+
                     pretty (status_code r) +:+ " " +:+ reason r) None)
        else json_list r
    | Raised e => Raised e
    end.
Proof.
  rewrite get_resources_to_check_run. unfold lister_request, sent.
  rewrite merge_setting_empty. cbn [fst snd heap requested]. repeat split.
  destruct (fst (send _ _)) as [r|e]; [|done].
  unfold ok. by destruct (is_error_status (status_code r)).
Qed.
End OneResource.

(** X15, instance: the resource a of the client site, alive. *)
Lemma check_one_checked_witness :
  let site := "http://demo.ckan.org/" in
  let url := VStr "http://example.org/a" in
  let result := probe_result url (VBool true) (VInt 200) (VStr "OK") in
  check_one scripted site (VStr "foo") (VStr "a")
            (State (empty_store [Returned url_of_a; Returned (plain 200 "OK");
                                 Returned (plain 201 "Created")]) 1 [])
  = (Returned tt,
     State (Store [result; <["resource_id" := VStr "a"]> result] []
                  [resolver_request site (VStr "foo") (VStr "a");
                   probe_request url;
                   reporter_request site (VStr "foo") (VStr "a") result])
           1
           [LogInfo (checked_msg url (VStr "a") (VInt 200) (VStr "OK")
                                 (VBool true))]).
Proof.
  intros site url result.
  exact (check_one_checked scripted site (VStr "foo")
           (State (empty_store [Returned url_of_a; Returned (plain 200 "OK");
                                Returned (plain 201 "Created")]) 1 [])
           (VStr "a") url_of_a url (plain 200 "OK")
           eq_refl eq_refl eq_refl eq_refl).
Defined.

